(** * Client-side ingestion of local data: [SparkSession.createDataFrame]

    A shallow embedding of [python/pyspark/sql/connect/session.py]:
    [SparkSession._inferSchemaFromList] and [SparkSession.createDataFrame].

    The functions the module imports from the rest of PySpark
    ([_infer_schema], [_merge_type], [_has_nulltype] of [pyspark.sql.types],
    [LocalDataToArrowConversion.convert], [to_arrow_type] and the pandas
    serializer) are not part of this file of the repository.  They are the
    fields of the class [Imported]; [createDataFrame] is written once, over
    any instance of it, and the instance [spec_imports] gives them the
    behaviour the design document describes. *)

From Stdlib Require Import String Ascii Bool ZArith Lia Arith DecimalString.
From Stdlib Require OrderedTypeEx DecimalNat DecimalFacts Finite.
From Stdlib Require Import List Sorted Permutation.
Import ListNotations.
Open Scope string_scope.

Set Implicit Arguments.
Set Warnings "-register-all,-notation-for-abbreviation".

(** ** Exceptions and results *)

(** The exceptions a call can end in.  [ValueError] and [TypeError] carry the
    message of the [raise] statement. *)
Inductive Exn : Type :=
| ValueError (msg : string)
| TypeError (msg : string)
| IndexError (msg : string)
| AttributeError (msg : string)
| AssertionError
| CoercionError (field : string) (row : nat).

Inductive Res (A : Type) : Type :=
| Ok (a : A)
| Raise (e : Exn).
Arguments Ok {A} a.
Arguments Raise {A} e.

Definition bind {A B : Type} (r : Res A) (k : A -> Res B) : Res B :=
  match r with
  | Ok a => k a
  | Raise e => Raise e
  end.

Notation "x <- r ;; k" := (bind r (fun x => k))
  (at level 61, r at next level, right associativity).
Notation "' p <- r ;; k" := (bind r (fun x => let p := x in k))
  (at level 61, p pattern, r at next level, right associativity).

(** [mapM f l]: a list comprehension whose body may raise; the first
    exception, in list order, is the one that propagates. *)
Fixpoint mapM {A B : Type} (f : A -> Res B) (l : list A) : Res (list B) :=
  match l with
  | [] => Ok []
  | a :: l' => b <- f a ;; bs <- mapM f l' ;; Ok (b :: bs)
  end.

(** Decimal rendering of a count, as [str(n)] and an f-string give it. *)
Definition str_nat (n : nat) : string := NilZero.string_of_uint (Nat.to_uint n).

(** ** The type system *)

Record StructFieldOf (T : Type) : Type := mkField
  { name : string; dataType : T; nullable : bool }.

(** [DataType]: the closed variant of the design document, with the explicit
    conflict variant its design notes give to an undetermined merge. *)
Inductive DataType : Type :=
| NullType
| BooleanType
| IntegerType (width : nat)
| FloatType (width : nat)
| StringType
| BinaryType
| TimestampType (tz : option string)
| ArrayType (elementType : DataType)
| StructType (fields : list (StructFieldOf DataType))
| ConflictType.

Notation StructField := (StructFieldOf DataType).

Definition fieldNames (fields : list StructField) : list string :=
  map (@name DataType) fields.

(** [isinstance(t, StructType)] and [isinstance(t, AtomicType)]. *)
Definition is_StructType (t : DataType) : bool :=
  match t with StructType _ => true | _ => false end.

Definition is_AtomicType (t : DataType) : bool :=
  match t with
  | BooleanType | IntegerType _ | FloatType _ | StringType | BinaryType
  | TimestampType _ => true
  | _ => false
  end.

(** Induction on a type, with the property at hand for the type of every
    field of a struct. *)
Section DataType_induction.

Variable P : DataType -> Prop.
Hypothesis HNull : P NullType.
Hypothesis HBoolean : P BooleanType.
Hypothesis HInteger : forall w, P (IntegerType w).
Hypothesis HFloat : forall w, P (FloatType w).
Hypothesis HString : P StringType.
Hypothesis HBinary : P BinaryType.
Hypothesis HTimestamp : forall tz, P (TimestampType tz).
Hypothesis HArray : forall e, P e -> P (ArrayType e).
Hypothesis HStruct :
  forall fields, Forall (fun f => P (dataType f)) fields ->
                 P (StructType fields).
Hypothesis HConflict : P ConflictType.

Fixpoint DataType_fields_ind (t : DataType) : P t :=
  match t with
  | NullType => HNull
  | BooleanType => HBoolean
  | IntegerType w => HInteger w
  | FloatType w => HFloat w
  | StringType => HString
  | BinaryType => HBinary
  | TimestampType tz => HTimestamp tz
  | ArrayType e => HArray (DataType_fields_ind e)
  | StructType fields =>
      HStruct
        ((fix all (l : list StructField)
            : Forall (fun f => P (dataType f)) l :=
            match l with
            | [] => Forall_nil _
            | f :: l' =>
                Forall_cons f (DataType_fields_ind (dataType f)) (all l')
            end) fields)
  | ConflictType => HConflict
  end.

End DataType_induction.

(** ** Python values *)

(** The items of an input collection.  A [dict] is its list of items in
    insertion order; [PyRow] is a [Row] (a tuple with field names),
    [PyObject] an object with a [__dict__].  A float is kept as the bit
    pattern of its binary64 representation: no arithmetic is done on it. *)
Inductive PyVal : Type :=
| PyNone
| PyBool (b : bool)
| PyInt (z : Z)
| PyFloat (bits : Z)
| PyStr (s : string)
| PyBytes (b : string)
| PyDatetime (micros : Z) (tz : option string)
| PyTuple (items : list PyVal)
| PyList (items : list PyVal)
| PyDict (items : list (string * PyVal))
| PyRow (items : list (string * PyVal))
| PyObject (attrs : list (string * PyVal)).

(** ** Arrow tables *)

(** A materialized value of a column. *)
Inductive Cell : Type :=
| CNull
| CBool (b : bool)
| CInt (z : Z)
| CFloat (bits : Z)
| CFloatOfInt (z : Z)
| CStr (s : string)
| CBytes (b : string)
| CTimestamp (micros : Z)
| CList (items : list Cell)
| CStruct (items : list Cell).

(** [pa.Table]: named columns. [shape[1]] is [num_columns]. *)
Record Table : Type := mkTable
  { column_names : list string; columns : list (list Cell) }.

Definition num_columns (t : Table) : nat := length (columns t).

Definition num_rows (t : Table) : nat :=
  match columns t with
  | [] => 0
  | c :: _ => length c
  end.

(** [pa.Table.from_arrays(arrays, names)]: one name per array. *)
Definition Table_from_arrays (arrays : list (list Cell)) (names : list string)
  : Res Table :=
  if Nat.eqb (length names) (length arrays)
  then Ok (mkTable names arrays)
  else Raise (ValueError
         ("Length of names (" ++ str_nat (length names)
          ++ ") does not match length of arrays ("
          ++ str_nat (length arrays) ++ ")")).

(** ** The inputs of [createDataFrame] *)

(** [np.ndarray]: its [shape] and its elements in row-major order;
    [ndim] is the length of [shape]. *)
Record ndarray : Type := mkArray
  { shape : list nat; elements : list Cell }.

Definition ndim (a : ndarray) : nat := length (shape a).

(** [data.shape[0]] and [data.shape[1]]; the second is read only where
    [ndim] is 2. *)
Definition shape0 (a : ndarray) : nat := nth 0 (shape a) 0.

Definition shape1 (a : ndarray) : nat := nth 1 (shape a) 0.

(** [data[::, i]] of a 2-D array: the [i]-th element of every row. *)
Definition array_column (a : ndarray) (i : nat) : list Cell :=
  map (fun r => nth (r * shape1 a + i) (elements a) CNull)
      (seq 0 (shape0 a)).

(** A column of a [pd.DataFrame]: its label as [str] gives it, whether its
    dtype is [datetime64] (with or without time zone), and its values. *)
Record Series : Type := mkSeries
  { label : string; is_datetime64 : bool; values : list PyVal }.

Record PandasFrame : Type := mkFrame
  { frame_columns : list Series; frame_len : nat }.

Inductive Data : Type :=
| DataNone
| ConnectDataFrame
| PandasDataFrame (df : PandasFrame)
| NdArray (a : ndarray)
| Iterable (sized : bool) (items : list PyVal).

(** The [schema] argument: absent, a [DataType], a DDL string or a list of
    column names. *)
Inductive Schema : Type :=
| SchemaNone
| SchemaType (t : DataType)
| SchemaStr (ddl : string)
| SchemaNames (names : list string).

(** ** The result *)

(** What [LocalRelation] is given as schema: [_schema.json()] of a type, or
    the caller's string. *)
Inductive SchemaRepr : Type :=
| JsonOf (t : DataType)
| Ddl (s : string).

Inductive Plan : Type :=
| LocalRelation (table : option Table) (schema : option SchemaRepr).

Inductive DataFrame : Type :=
| withPlan (p : Plan)
| toDF (df : DataFrame) (cols : list string).

(** ** What the module imports *)

Class Imported : Type := mkImported
  { ArrowType : Type;
    _infer_schema : PyVal -> option (list string) -> Res DataType;
    _merge_type : DataType -> DataType -> Res DataType;
    _has_nulltype : DataType -> bool;
    LocalDataToArrowConversion_convert : list PyVal -> DataType -> Res Table;
    to_arrow_type : DataType -> Res ArrowType;
    _create_batch : list (Series * option ArrowType) -> Res Table;
    DataType_str : DataType -> string }.

(** ** Messages *)

Definition msg_empty : string := "can not infer schema from empty dataset".

Definition msg_already : string := "data is already a DataFrame".

Definition msg_ndim : string :=
  "NumPy array input should be of 1 or 2 dimensions.".

Definition msg_undetermined : string :=
  "Some of types cannot be determined after inferring, "
  ++ "a StructType Schema is required in this case".

(** f"Length mismatch: Expected axis has {e} elements, new values have {n}
    elements" *)
Definition msg_length_mismatch (e n : nat) : string :=
  "Length mismatch: Expected axis has " ++ str_nat e
  ++ " elements, new values have " ++ str_nat n ++ " elements".

(** f"Length mismatch: Expected axis has 1 element, new values have {n}
    elements" *)
Definition msg_length_mismatch_1d (n : nat) : string :=
  "Length mismatch: Expected axis has 1 element, new values have "
  ++ str_nat n ++ " elements".

(** ** Sorting the items of a dict *)

(** [sorted(d.items())]: the keys of a dict are distinct, so the pairs are
    ordered by their keys alone; strings compare lexicographically. *)
Fixpoint insert_item (kv : string * PyVal) (l : list (string * PyVal))
  : list (string * PyVal) :=
  match l with
  | [] => [kv]
  | kv' :: l' =>
      if String.leb (fst kv) (fst kv') then kv :: l
      else kv' :: insert_item kv l'
  end.

Definition sorted_items (items : list (string * PyVal))
  : list (string * PyVal) :=
  fold_right insert_item [] items.

(** ** [session.py] *)

(** The locals [_schema], [_schema_str], [_cols], [_num_cols] of
    [createDataFrame]. *)
Record Locals : Type := mkLocals
  { _schema : option DataType;
    _schema_str : option string;
    _cols : option (list string);
    _num_cols : option nat }.

(** Lines 197-215: what the [schema] argument sets. *)
Definition schema_locals (schema : Schema) : Locals :=
  match schema with
  | SchemaType t =>
      if is_AtomicType t || is_StructType t then
        mkLocals (Some t) None None
          (Some (match t with
                 | StructType fields => length fields
                 | _ => 1
                 end))
      else mkLocals None None None None
  | SchemaStr s => mkLocals None (Some s) None None
  | SchemaNames names => mkLocals None None (Some names) (Some (length names))
  | SchemaNone => mkLocals None None None None
  end.

(** [isinstance(data, Sized) and len(data) == 0].  The [len] of an array is
    its first dimension, and raises on a 0-dimensional one; an iterable
    that is not [Sized] is not asked. *)
Definition is_empty_sized (data : Data) : Res bool :=
  match data with
  | PandasDataFrame df => Ok (frame_len df =? 0)%nat
  | NdArray a =>
      match shape a with
      | [] => Raise (TypeError "len() of unsized object")
      | n :: _ => Ok (n =? 0)%nat
      end
  | Iterable true items => Ok (length items =? 0)%nat
  | _ => Ok false
  end.

Definition is_dict (v : PyVal) : bool :=
  match v with PyDict _ => true | _ => false end.

(** [isinstance(v, (Row, tuple, list, dict))] *)
Definition is_row_like (v : PyVal) : bool :=
  match v with
  | PyRow _ | PyTuple _ | PyList _ | PyDict _ => true
  | _ => false
  end.

(** [hasattr(v, "__dict__")] *)
Definition has___dict__ (v : PyVal) : bool :=
  match v with PyObject _ => true | _ => false end.

(** [hasattr(v, "items")] for a value that is not a dict: a [Row] answers
    for the names of its fields and an object for its attributes; a tuple,
    a list and the scalars have no such attribute. *)
Definition has_attribute_items (v : PyVal) : bool :=
  match v with
  | PyRow fields | PyObject fields =>
      existsb (String.eqb "items") (map fst fields)
  | _ => false
  end.

(** [dict(sorted(d.items()))].  On a value that is not a dict, [d.items]
    is an [AttributeError] when there is no such attribute; when a [Row]
    has a field [items] or an object an attribute [items], it is the value
    of that field, and calling it is a [TypeError]: no value of [PyVal] can
    be called.  An object stands for an instance of a plain class, whose
    attributes are those of its [__dict__]. *)
Definition sort_dict (d : PyVal) : Res PyVal :=
  match d with
  | PyDict items => Ok (PyDict (sorted_items items))
  | _ =>
      if has_attribute_items d
      then Raise (TypeError "object is not callable")
      else Raise (AttributeError "object has no attribute 'items'")
  end.

(** Lines 291-303: [_data] as it is handed to inference.  Only the first
    item decides which of the three ways is taken. *)
Definition normalize_rows (items : list PyVal) : Res (list PyVal) :=
  match items with
  | [] => Raise (IndexError "list index out of range")
  | d0 :: _ =>
      if is_dict d0 then mapM sort_dict items
      else if negb (is_row_like d0) && negb (has___dict__ d0)
      then Ok (map (fun d => PyList [d]) items)
      else Ok items
  end.

(** Lines 265-269: the names of the columns of an array when the caller
    gave none. *)
Definition default_array_cols (a : ndarray) : list string :=
  if (ndim a =? 1)%nat || (shape1 a =? 1)%nat then ["value"]
  else map (fun i => "_" ++ str_nat i) (seq 1 (shape1 a)).

Section Session.

Context `{Imported}.

(** [reduce(_merge_type, ...)] over the generator of the rows' types,
    after its first element: a row's type is inferred when the fold
    reaches it. *)
Fixpoint reduce_merge_type (acc : DataType) (rows : list PyVal)
  (names : option (list string)) : Res DataType :=
  match rows with
  | [] => Ok acc
  | row :: rows' =>
      t <- _infer_schema row names ;;
      acc' <- _merge_type acc t ;;
      reduce_merge_type acc' rows' names
  end.

Definition _inferSchemaFromList (data : list PyVal)
  (names : option (list string)) : Res DataType :=
  match data with
  | [] => Raise (ValueError msg_empty)
  | row :: rows =>
      t <- _infer_schema row names ;;
      reduce_merge_type t rows names
  end.

(** Lines 228-259: a [pd.DataFrame]. *)
Definition from_pandas (df : PandasFrame) (schema : Schema) (L : Locals)
  : Res (Table * option (list string)) :=
  let cols0 :=
    match schema with
    | SchemaNone => Some (map label (frame_columns df))
    | _ => _cols L
    end in
  '(arrow_types, cols1) <-
    match schema with
    | SchemaType (StructType fields) =>
        ats <- mapM (fun f => to_arrow_type (dataType f)) fields ;;
        Ok (map Some ats, Some (fieldNames fields))
    | SchemaType t =>
        Raise (ValueError ("Single data type " ++ DataType_str t
                           ++ " is not supported with Arrow"))
    | _ =>
        ats <- mapM (fun c : Series =>
                       if is_datetime64 c
                       then a <- to_arrow_type (TimestampType None) ;;
                            Ok (Some a)
                       else Ok None)
                    (frame_columns df) ;;
        Ok (ats, cols0)
    end ;;
  tbl <- _create_batch (combine (frame_columns df) arrow_types) ;;
  Ok (tbl, cols1).

(** Lines 261-288: an [np.ndarray]. *)
Definition from_ndarray (a : ndarray) (L : Locals)
  : Res (Table * option (list string)) :=
  if negb (ndim a =? 1)%nat && negb (ndim a =? 2)%nat
  then Raise (ValueError msg_ndim)
  else
    let cols :=
      match _cols L with
      | Some c => c
      | None => default_array_cols a
      end in
    if (ndim a =? 1)%nat then
      if negb (1 =? length cols)%nat
      then Raise (ValueError (msg_length_mismatch_1d (length cols)))
      else
        tbl <- Table_from_arrays [elements a] cols ;;
        Ok (tbl, Some cols)
    else
      if negb (shape1 a =? length cols)%nat
      then Raise (ValueError
                    (msg_length_mismatch (shape1 a) (length cols)))
      else
        tbl <- Table_from_arrays
                 (map (array_column a) (seq 0 (shape1 a))) cols ;;
        Ok (tbl, Some cols).

(** Lines 307-316: the schema handed to the conversion.  The warning
    "failed to infer the schema from data" changes no result and is left
    out. *)
Definition resolve_schema (inferred : DataType) (L : Locals)
  : Res DataType :=
  if _has_nulltype inferred then
    match _schema L with
    | Some (StructType fields) => Ok (StructType fields)
    | _ => Raise (ValueError msg_undetermined)
    end
  else Ok inferred.

(** Lines 290-323: any other iterable. *)
Definition from_rows (items : list PyVal) (L : Locals)
  : Res (Table * option (list string)) :=
  _data <- normalize_rows items ;;
  inferred <- _inferSchemaFromList _data (_cols L) ;;
  used <- resolve_schema inferred L ;;
  tbl <- LocalDataToArrowConversion_convert _data used ;;
  Ok (tbl, _cols L).

(** Lines 228-323: [_table], with [_cols] as the branch leaves it. *)
Definition build_table (data : Data) (schema : Schema) (L : Locals)
  : Res (Table * option (list string)) :=
  match data with
  | PandasDataFrame df => from_pandas df schema L
  | NdArray a => from_ndarray a L
  | Iterable _ items => from_rows items L
  | DataNone => Raise AssertionError
  | ConnectDataFrame => Raise (TypeError msg_already)
  end.

(** Lines 333-340. *)
Definition relation_of (tbl : Table) (cols : option (list string))
  (L : Locals) : DataFrame :=
  match _schema L, _schema_str L, cols with
  | Some t, _, _ => withPlan (LocalRelation (Some tbl) (Some (JsonOf t)))
  | None, Some s, _ => withPlan (LocalRelation (Some tbl) (Some (Ddl s)))
  | None, None, Some (c :: cs) =>
      toDF (withPlan (LocalRelation (Some tbl) None)) (c :: cs)
  | None, None, _ => withPlan (LocalRelation (Some tbl) None)
  end.

(** Lines 325-340: the check of the number of columns, and the result. *)
Definition finish (tbl : Table) (cols : option (list string)) (L : Locals)
  : Res DataFrame :=
  match _num_cols L with
  | Some n =>
      if negb (n =? num_columns tbl)%nat
      then Raise (ValueError (msg_length_mismatch n (num_columns tbl)))
      else Ok (relation_of tbl cols L)
  | None => Ok (relation_of tbl cols L)
  end.

(** Lines 217-223: an empty [Sized] input. *)
Definition empty_relation (L : Locals) : Res DataFrame :=
  match _schema L, _schema_str L with
  | Some t, _ => Ok (withPlan (LocalRelation None (Some (JsonOf t))))
  | None, Some s => Ok (withPlan (LocalRelation None (Some (Ddl s))))
  | None, None => Raise (ValueError msg_empty)
  end.

Definition createDataFrame (data : Data) (schema : Schema)
  : Res DataFrame :=
  match data with
  | DataNone => Raise AssertionError
  | ConnectDataFrame => Raise (TypeError msg_already)
  | _ =>
      let L := schema_locals schema in
      empty <- is_empty_sized data ;;
      if (empty : bool) then empty_relation L
      else
        '(tbl, cols) <- build_table data schema L ;;
        finish tbl cols L
  end.

End Session.

(** ** The imported functions, after the design document *)

(** *** Schema Merger (section 4.3) *)

Definition is_NullType (t : DataType) : bool :=
  match t with NullType => true | _ => false end.

(** A field that can hold a null: declared so, or of the [Null] type. *)
Definition null_flag (f : StructField) : bool :=
  nullable f || is_NullType (dataType f).

Definition make_nullable (f : StructField) : StructField :=
  mkField (name f) (dataType f) true.

Definition find_field (n : string) (fields : list StructField)
  : option StructField :=
  find (fun g => String.eqb (name g) n) fields.

Definition has_field (fields : list StructField) (g : StructField) : bool :=
  existsb (String.eqb (name g)) (fieldNames fields).

Definition tz_eqb (a b : option string) : bool :=
  match a, b with
  | None, None => true
  | Some x, Some y => String.eqb x y
  | _, _ => false
  end.

(** The fields of [merge(Struct(f1), Struct(f2))]: those of [f1] in their
    order, each merged with the field of [f2] of its name when there is
    one, then the fields only [f2] has.  [m] merges two types. *)
Definition merge_field (m : DataType -> DataType -> DataType)
  (f2 : list StructField) (f : StructField) : StructField :=
  match find_field (name f) f2 with
  | Some g =>
      mkField (name f) (m (dataType f) (dataType g))
              (null_flag f || null_flag g)
  | None => make_nullable f
  end.

Definition only_right (f1 f2 : list StructField) : list StructField :=
  map make_nullable (filter (fun g => negb (has_field f1 g)) f2).

Definition merge_fields (m : DataType -> DataType -> DataType)
  (f1 f2 : list StructField) : list StructField :=
  map (merge_field m f2) f1 ++ only_right f1 f2.

(** Modelled from the spec: [_merge_type] of [pyspark.sql.types], which is
    not in [session.py].  Section 4.3: null is absorbed; integers widen to
    the larger width and to a float; structs merge field by field, in
    first-seen order; arrays merge their elements; any other disagreeing
    pair is a conflict, which is recorded in the type and not raised. *)
Fixpoint merge_type (a b : DataType) {struct a} : DataType :=
  match a, b with
  | NullType, _ => b
  | _, NullType => a
  | ConflictType, _ => ConflictType
  | _, ConflictType => ConflictType
  | BooleanType, BooleanType => BooleanType
  | IntegerType w1, IntegerType w2 => IntegerType (Nat.max w1 w2)
  | IntegerType _, FloatType w => FloatType w
  | FloatType w, IntegerType _ => FloatType w
  | FloatType w1, FloatType w2 =>
      if (w1 =? w2)%nat then FloatType w1 else ConflictType
  | StringType, StringType => StringType
  | BinaryType, BinaryType => BinaryType
  | TimestampType tz1, TimestampType tz2 =>
      if tz_eqb tz1 tz2 then TimestampType tz1 else ConflictType
  | ArrayType e1, ArrayType e2 => ArrayType (merge_type e1 e2)
  | StructType f1, StructType f2 =>
      StructType
        ((fix merge_left (l : list StructField) : list StructField :=
            match l with
            | [] => []
            | f :: l' =>
                match find_field (name f) f2 with
                | Some g =>
                    mkField (name f)
                            (merge_type (dataType f) (dataType g))
                            (null_flag f || null_flag g)
                | None => make_nullable f
                end :: merge_left l'
            end) f1
         ++ only_right f1 f2)
  | _, _ => ConflictType
  end.

(** *** Schema Inferrer (sections 4.1 and 4.2) *)

(** The narrowest signed width that holds [z]. *)
Definition int_width (z : Z) : nat :=
  if ((-128 <=? z) && (z <=? 127))%Z then 8
  else if ((-32768 <=? z) && (z <=? 32767))%Z then 16
  else if ((-2147483648 <=? z) && (z <=? 2147483647))%Z then 32
  else 64.

Definition field_of (n : string) (t : DataType) : StructField :=
  mkField n t (is_NullType t).

(** The type of one value: atoms map directly, [None] is [Null], nested
    sequences are arrays of the merge of their elements, nested mappings
    and records are structs. *)
Fixpoint infer_type (v : PyVal) : DataType :=
  match v with
  | PyNone => NullType
  | PyBool _ => BooleanType
  | PyInt z => IntegerType (int_width z)
  | PyFloat _ => FloatType 64
  | PyStr _ => StringType
  | PyBytes _ => BinaryType
  | PyDatetime _ tz => TimestampType tz
  | PyTuple items | PyList items =>
      ArrayType (fold_left merge_type (map infer_type items) NullType)
  | PyDict items | PyRow items | PyObject items =>
      StructType
        (map (fun kv => field_of (fst kv) (infer_type (snd kv))) items)
  end.

(** The name of the [i]-th position of a row without names. *)
Definition positional_name (i : nat) : string := "_" ++ str_nat i.

(** A plain sequence paired with the supplied names, position by position;
    a position no name is supplied for gets its positional name. *)
Fixpoint name_positions (names : list string) (i : nat) (items : list PyVal)
  : list (string * PyVal) :=
  match items with
  | [] => []
  | v :: vs =>
      match names with
      | n :: ns => (n, v) :: name_positions ns (S i) vs
      | [] => (positional_name i, v) :: name_positions [] (S i) vs
      end
  end.

Definition struct_of (items : list (string * PyVal)) : DataType :=
  StructType (map (fun kv => field_of (fst kv) (infer_type (snd kv))) items).

(** Modelled from the spec: [_infer_schema] of [pyspark.sql.types], which
    is not in [session.py].  Sections 4.1 and 4.2: a mapping or a named
    record gives a struct of its fields in their order, a plain sequence
    is paired with the names, a bare scalar gives its atomic type.  The
    document does not say how a position without a name is called; it is
    [_i] here, as for the columns of an array. *)
Definition infer_schema (row : PyVal) (names : option (list string))
  : DataType :=
  match row with
  | PyDict items | PyRow items | PyObject items => struct_of items
  | PyTuple items | PyList items =>
      struct_of (name_positions
                   (match names with Some ns => ns | None => [] end) 1 items)
  | _ => infer_type row
  end.

(** Modelled from the spec: [_has_nulltype] of [pyspark.sql.types], which
    is not in [session.py].  Section 4.5: the inferred result is
    undetermined when a [Null] or a conflict is left anywhere in it. *)
Fixpoint has_nulltype (t : DataType) : bool :=
  match t with
  | NullType | ConflictType => true
  | ArrayType e => has_nulltype e
  | StructType fields =>
      existsb (fun f => has_nulltype (dataType f)) fields
  | _ => false
  end.

(** *** Columnar Materializer (section 4.4) *)

Fixpoint lookup_item (n : string) (items : list (string * PyVal))
  : option PyVal :=
  match items with
  | [] => None
  | (k, v) :: items' => if String.eqb k n then Some v else lookup_item n items'
  end.

(** The value of a row a field addresses: by name in a mapping or a named
    record, by position in a plain sequence; a bare scalar is a row of one
    position.  [None] when the row has no such value. *)
Definition field_value (row : PyVal) (i : nat) (n : string) : option PyVal :=
  match row with
  | PyDict items | PyRow items | PyObject items => lookup_item n items
  | PyTuple items | PyList items => nth_error items i
  | _ => match i with 0 => Some row | S _ => None end
  end.

(** [z] fits a signed integer of [w] bits. *)
Definition fits (w : nat) (z : Z) : bool :=
  match w with
  | 0 => false
  | S w' => ((- 2 ^ Z.of_nat w' <=? z) && (z <? 2 ^ Z.of_nat w'))%Z
  end.

Fixpoint all_some {A : Type} (l : list (option A)) : option (list A) :=
  match l with
  | [] => Some []
  | None :: _ => None
  | Some a :: l' => option_map (cons a) (all_some l')
  end.

(** The cell a value gives in a column of type [t]; [None] when the value
    cannot be cast to [t].  A [None] value is a null whatever [t] is; an
    integer is upcast to the width of the field or to a float; arrays and
    structs are materialized recursively. *)
Fixpoint coerce (t : DataType) (v : PyVal) {struct t} : option Cell :=
  match v with
  | PyNone => Some CNull
  | _ =>
      match t with
      | BooleanType =>
          match v with PyBool b => Some (CBool b) | _ => None end
      | IntegerType w =>
          match v with
          | PyInt z => if fits w z then Some (CInt z) else None
          | _ => None
          end
      | FloatType _ =>
          match v with
          | PyFloat x => Some (CFloat x)
          | PyInt z => Some (CFloatOfInt z)
          | _ => None
          end
      | StringType =>
          match v with PyStr s => Some (CStr s) | _ => None end
      | BinaryType =>
          match v with PyBytes b => Some (CBytes b) | _ => None end
      | TimestampType _ =>
          match v with PyDatetime m _ => Some (CTimestamp m) | _ => None end
      | ArrayType e =>
          match v with
          | PyTuple items | PyList items =>
              option_map CList (all_some (map (coerce e) items))
          | _ => None
          end
      | StructType fields =>
          match v with
          | PyDict _ | PyRow _ | PyObject _ | PyTuple _ | PyList _ =>
              option_map CStruct
                (all_some
                   ((fix cells (i : nat) (l : list StructField)
                       : list (option Cell) :=
                       match l with
                       | [] => []
                       | f :: l' =>
                           match field_value v i (name f) with
                           | None => Some CNull
                           | Some x => coerce (dataType f) x
                           end :: cells (S i) l'
                       end) 0 fields))
          | _ => None
          end
      | NullType | ConflictType => None
      end
  end.

(** One cell of the column of field [f], the [i]-th of the schema, for the
    [r]-th row. *)
Definition materialize_cell (i : nat) (f : StructField) (r : nat)
  (row : PyVal) : Res Cell :=
  match field_value row i (name f) with
  | None => Ok CNull
  | Some v =>
      match coerce (dataType f) v with
      | Some c => Ok c
      | None => Raise (CoercionError (name f) r)
      end
  end.

(** [mapM] with the index of each element. *)
Fixpoint mapMi {A B : Type} (f : nat -> A -> Res B) (i : nat) (l : list A)
  : Res (list B) :=
  match l with
  | [] => Ok []
  | a :: l' => b <- f i a ;; bs <- mapMi f (S i) l' ;; Ok (b :: bs)
  end.

(** Modelled from the spec: [LocalDataToArrowConversion.convert] of
    [pyspark.sql.connect.conversion], which is not in [session.py].
    Section 4.4: one column per field of the struct, built row by row from
    the value the field addresses, a null where the value is missing or
    [None]; section 7: a value that cannot be cast to the type of its field
    is a [CoercionError] naming the field and the row. *)
Definition materialize (data : list PyVal) (schema : DataType) : Res Table :=
  match schema with
  | StructType fields =>
      cols <- mapMi (fun i f => mapMi (materialize_cell i f) 0 data)
                    0 fields ;;
      Ok (mkTable (fieldNames fields) cols)
  | _ => Raise AssertionError
  end.

(** *** Tabular-frame adapter (section 4.4) *)

(** Modelled from the spec: [ArrowStreamPandasSerializer._create_batch],
    which is not in [session.py].  One column per series, read with the
    target type chosen for it, or with the type of each value when none
    was chosen. *)
Definition create_batch (pairs : list (Series * option DataType))
  : Res Table :=
  cols <- mapM (fun p : Series * option DataType =>
                  mapMi (fun r v =>
                           let t := match snd p with
                                    | Some t => t
                                    | None => infer_type v
                                    end in
                           match coerce t v with
                           | Some c => Ok c
                           | None => Raise (CoercionError (label (fst p)) r)
                           end)
                        0 (values (fst p)))
               pairs ;;
  Ok (mkTable (map (fun p : Series * option DataType => label (fst p)) pairs)
              cols).

(** Modelled from the spec: [str] of a [DataType], which is not in
    [session.py]; the name of the variant. *)
Definition type_str (t : DataType) : string :=
  match t with
  | NullType => "NullType"
  | BooleanType => "BooleanType"
  | IntegerType _ => "IntegerType"
  | FloatType _ => "FloatType"
  | StringType => "StringType"
  | BinaryType => "BinaryType"
  | TimestampType _ => "TimestampType"
  | ArrayType _ => "ArrayType"
  | StructType _ => "StructType"
  | ConflictType => "ConflictType"
  end.

(** The imports as the design document describes them.  The temporal
    coercion of the frame adapter keeps the type it is given. *)
#[export] Instance spec_imports : Imported :=
  {| ArrowType := DataType;
     _infer_schema := fun row names => Ok (infer_schema row names);
     _merge_type := fun a b => Ok (merge_type a b);
     _has_nulltype := has_nulltype;
     LocalDataToArrowConversion_convert := materialize;
     to_arrow_type := fun t => Ok t;
     _create_batch := create_batch;
     DataType_str := type_str |}.

(** [convert(data, schema)] of the design document: [createDataFrame] with
    these imports. *)
Definition convert (data : Data) (schema : Schema) : Res DataFrame :=
  @createDataFrame spec_imports data schema.

(** ** Vocabulary of the statements *)

(** The number of columns a schema argument declares: the number of fields
    of a struct, 1 for an atomic type, the length of a list of names. *)
Inductive declares : Schema -> nat -> Prop :=
| declares_struct (fields : list StructField) :
    declares (SchemaType (StructType fields)) (length fields)
| declares_atomic (t : DataType) :
    is_AtomicType t = true -> declares (SchemaType t) 1
| declares_names (names : list string) :
    declares (SchemaNames names) (length names).

(** The items of a dict are in the order of their keys. *)
Definition key_le (x y : string * PyVal) : Prop :=
  String.leb (fst x) (fst y) = true.

Definition keys (items : list (string * PyVal)) : list string :=
  map fst items.

(** The [r]-th row of a table, and its rows. *)
Definition table_row (t : Table) (r : nat) : list Cell :=
  map (fun column => nth r column CNull) (columns t).

Definition table_rows (t : Table) : list (list Cell) :=
  map (table_row t) (seq 0 (num_rows t)).


(** A bare scalar: not a mapping, a sequence or a named record. *)
Definition is_scalar (v : PyVal) : bool :=
  negb (is_row_like v) && negb (has___dict__ v).

(** The names [_1] to [_N]. *)
Definition names_1_to (N : nat) : list string :=
  map (fun i => "_" ++ str_nat i) (seq 1 N).

(** The number of columns of a 1-D or 2-D array, and its columns. *)
Definition array_width (a : ndarray) : nat :=
  if (ndim a =? 1)%nat then 1 else shape1 a.

Definition array_arrays (a : ndarray) : list (list Cell) :=
  if (ndim a =? 1)%nat then [elements a]
  else map (array_column a) (seq 0 (shape1 a)).

(** ** Examples *)

Definition array_3x2 : ndarray :=
  mkArray [3; 2] [CInt 1; CInt 2; CInt 3; CInt 4; CInt 5; CInt 6].

Definition array_3x1 : ndarray := mkArray [3; 1] [CInt 1; CInt 2; CInt 3].

Definition array_0x2 : ndarray := mkArray [0; 2] [].

Definition array_0x2x2 : ndarray := mkArray [0; 2; 2] [].

Definition array_2x2x2 : ndarray :=
  mkArray [2; 2; 2]
    [CInt 1; CInt 2; CInt 3; CInt 4; CInt 5; CInt 6; CInt 7; CInt 8].

Definition two_columns : list PyVal := [PyTuple [PyInt 1; PyInt 2]].

Definition scalars_123 : list PyVal := [PyInt 1; PyInt 2; PyInt 3].

Definition alice : list PyVal :=
  [PyTuple [PyStr "Alice"; PyNone; PyFloat 4635336953345500774]].

Definition alice_schema : list StructField :=
  [mkField "name" StringType false;
   mkField "age" (IntegerType 32) false;
   mkField "score" (FloatType 64) false].

Definition alice_numeric_schema : list StructField :=
  [mkField "name" (IntegerType 32) false;
   mkField "age" (IntegerType 32) false;
   mkField "score" (FloatType 64) false].

Definition dicts_ba : list PyVal :=
  [PyDict [("b", PyInt 1); ("a", PyInt 2)];
   PyDict [("a", PyInt 3); ("b", PyInt 4)]].

(** ** Reading a result *)

(** The relation at the bottom of a [DataFrame], its table and its
    schema. *)
Fixpoint df_plan (df : DataFrame) : Plan :=
  match df with
  | withPlan p => p
  | toDF df' _ => df_plan df'
  end.

Definition df_table (df : DataFrame) : option Table :=
  match df_plan df with LocalRelation t _ => t end.

Definition df_schema (df : DataFrame) : option SchemaRepr :=
  match df_plan df with LocalRelation _ s => s end.

(** [data.size]: the number of elements the shape of an array asks for. *)
Definition array_size (a : ndarray) : nat := fold_right Nat.mul 1 (shape a).

(** The [r]-th row of a 2-D array: [data[r]]. *)
Definition array_row (a : ndarray) (r : nat) : list Cell :=
  firstn (shape1 a) (skipn (r * shape1 a) (elements a)).

(** ** The rest of [session.py] *)

(** The exceptions of the builder, of [stop] and of the local server. *)
Inductive SessionExn : Type :=
| KeyError (key : string)
| NotImplementedError (msg : string)
| RuntimeError (msg : string)
| ImportError (msg : string)
| OtherException (msg : string)
| KeyboardInterrupt
| SystemExit (code : Z).

(** [isinstance(e, Exception)]: [KeyboardInterrupt] and [SystemExit] are
    [BaseException]s that are not [Exception]s. *)
Definition is_Exception (e : SessionExn) : bool :=
  match e with
  | KeyboardInterrupt | SystemExit _ => false
  | _ => true
  end.

Inductive Outcome (A : Type) : Type :=
| Returns (a : A)
| Raises (e : SessionExn).
Arguments Returns {A} a.
Arguments Raises {A} e.

(** *** Dicts *)

(** A [dict] as the list of its items: [d[k]], [d[k] = v], which keeps the
    place of a key that is there and adds a new key at the end, [del d[k]]
    and [k in d]. *)
Section Dict.

Variables (K V : Type) (eqb : K -> K -> bool).

Fixpoint dict_get (k : K) (d : list (K * V)) : option V :=
  match d with
  | [] => None
  | (k', v) :: d' => if eqb k' k then Some v else dict_get k d'
  end.

Fixpoint dict_set (k : K) (v : V) (d : list (K * V)) : list (K * V) :=
  match d with
  | [] => [(k, v)]
  | (k', v') :: d' =>
      if eqb k' k then (k', v) :: d' else (k', v') :: dict_set k v d'
  end.

Definition dict_del (k : K) (d : list (K * V)) : list (K * V) :=
  filter (fun kv => negb (eqb (fst kv) k)) d.

Definition dict_contains (k : K) (d : list (K * V)) : bool :=
  match dict_get k d with Some _ => true | None => false end.

End Dict.

(** *** [SparkSession.Builder] *)

(** The keys of [_options]: [config] takes an optional key. *)
Definition option_key_eqb (a b : option string) : bool :=
  match a, b with
  | None, None => true
  | Some x, Some y => String.eqb x y
  | _, _ => false
  end.

Record Builder : Type := mkBuilder
  { _options : list (option string * option string) }.

(** [Builder()] *)
Definition new_Builder : Builder := mkBuilder [].

Section BuilderMethods.

(** [to_str] of [pyspark.sql.utils] and [SparkConnectClient], which
    [session.py] imports. *)
Variable to_str : PyVal -> option string.
Variable Client : Type.
Variable SparkConnectClient : option string -> Outcome Client.

(** [config(key, value, map=map)]; the key and the value are not looked
    at when a map is given. *)
Definition Builder_config (key : option string) (value : PyVal)
  (map : option (list (string * PyVal))) (b : Builder) : Builder :=
  match map with
  | Some m =>
      mkBuilder
        (fold_left
           (fun opts kv =>
              dict_set option_key_eqb (Some (fst kv)) (to_str (snd kv)) opts)
           m (_options b))
  | None =>
      mkBuilder (dict_set option_key_eqb key (to_str value) (_options b))
  end.

Definition Builder_master (master : string) (b : Builder) : Builder := b.

Definition Builder_appName (name : string) (b : Builder) : Builder :=
  Builder_config (Some "spark.app.name") (PyStr name) None b.

(** [remote(location)]; [None] for a call without argument. *)
Definition Builder_remote (location : option string) (b : Builder)
  : Builder :=
  Builder_config (Some "spark.remote")
    (PyStr (match location with
            | Some l => l
            | None => "sc://localhost"
            end))
    None b.

Definition Builder_enableHiveSupport (b : Builder) : Outcome Builder :=
  Raises (NotImplementedError
            "enableHiveSupport not implemented for Spark Connect").

(** [SparkSession(connectionString)]: a session is its client. *)
Definition SparkSession_init (connectionString : option string)
  : Outcome Client :=
  SparkConnectClient connectionString.

Definition Builder_getOrCreate (b : Builder) : Outcome Client :=
  match dict_get option_key_eqb (Some "spark.remote") (_options b) with
  | Some connectionString => SparkSession_init connectionString
  | None => Raises (KeyError "spark.remote")
  end.

(** A call of a method that returns the builder, and a chain of them. *)
Inductive BuilderCall : Type :=
| CallConfig (key : option string) (value : PyVal)
    (map : option (list (string * PyVal)))
| CallMaster (master : string)
| CallAppName (name : string)
| CallRemote (location : option string).

Definition Builder_call (b : Builder) (c : BuilderCall) : Builder :=
  match c with
  | CallConfig key value map => Builder_config key value map b
  | CallMaster master => Builder_master master b
  | CallAppName name => Builder_appName name b
  | CallRemote location => Builder_remote location b
  end.

Definition Builder_chain (calls : list BuilderCall) (b : Builder) : Builder :=
  fold_left Builder_call calls b.

(** The call writes the option [spark.remote]. *)
Definition writes_remote (c : BuilderCall) : bool :=
  match c with
  | CallConfig _ _ (Some m) => existsb (String.eqb "spark.remote") (map fst m)
  | CallConfig key _ None => option_key_eqb key (Some "spark.remote")
  | CallMaster _ | CallAppName _ => false
  | CallRemote _ => true
  end.

End BuilderMethods.

(** *** The process: [os.environ] and everything else *)

Record World (S : Type) : Type := mkWorld
  { environ : list (string * string); others : S }.

Definition with_environ {S : Type} (env : list (string * string))
  (w : World S) : World S :=
  mkWorld env (others w).

(** A statement: it returns or raises, and leaves a world. *)
Definition Eff (S A : Type) : Type := World S -> Outcome A * World S.

Definition eff_ret {S A : Type} (a : A) : Eff S A := fun w => (Returns a, w).

Definition eff_bind {S A B : Type} (m : Eff S A) (k : A -> Eff S B)
  : Eff S B :=
  fun w =>
    match m w with
    | (Returns a, w') => k a w'
    | (Raises e, w') => (Raises e, w')
    end.

Notation "x <~ m ;; k" := (eff_bind m (fun x => k))
  (at level 61, m at next level, right associativity).

(** [k in os.environ], [del os.environ[k]], [os.environ[k] = v] *)
Definition in_environ {S : Type} (k : string) (w : World S) : bool :=
  dict_contains String.eqb k (environ w).

Definition del_environ {S : Type} (k : string) : Eff S unit :=
  fun w =>
    if in_environ k w
    then (Returns tt, with_environ (dict_del String.eqb k (environ w)) w)
    else (Raises (KeyError k), w).

Definition set_environ {S : Type} (k v : string) : Eff S unit :=
  fun w => (Returns tt, with_environ (dict_set String.eqb k v (environ w)) w).

(** [try: body finally: final] *)
Definition try_finally {S A : Type} (body : Eff S A) (final : Eff S unit)
  : Eff S A :=
  fun w =>
    match body w with
    | (r, w1) =>
        match final w1 with
        | (Returns _, w2) => (r, w2)
        | (Raises e, w2) => (Raises e, w2)
        end
    end.

Section SessionMethods.

Variable S : Type.

(** [self.client.close()], [PySparkSession.getActiveSession()] and the
    [stop] of the session it returns. *)
Variable client_close : Eff S unit.
Variable ActiveSession : Type.
Variable getActiveSession : Eff S (option ActiveSession).
Variable active_session_stop : ActiveSession -> Eff S unit.

(** Lines 384-389: [except Exception: pass]. *)
Definition __del__ : Eff S unit :=
  fun w =>
    match client_close w with
    | (Returns _, w') => (Returns tt, w')
    | (Raises e, w') =>
        if is_Exception e then (Returns tt, w') else (Raises e, w')
    end.

(** Lines 391-412. *)
Definition stop : Eff S unit :=
  _ <~ client_close ;;
  fun w =>
    if in_environ "SPARK_LOCAL_REMOTE" w then
      (active_session <~ getActiveSession ;;
       _ <~ match active_session with
            | Some s => active_session_stop s
            | None => eff_ret tt
            end ;;
       _ <~ del_environ "SPARK_LOCAL_REMOTE" ;;
       del_environ "SPARK_REMOTE") w
    else (Returns tt, w).

(** What [_start_connect_server] uses: whether
    [PySparkSession._instantiatedSession] is a session with a JVM, whether
    the version is a development one, [SparkConf] with its [set] and
    [contains], [SparkContext._ensure_initialized], the search of the jar
    ([search_jar] and its import) and [addJarToCurrentClassLoader], and
    [PySparkSession(SparkContext.getOrCreate(conf))]. *)
Variable live_session : World S -> bool.
Variable version_is_dev : bool.
Variable Conf : Type.
Variable SparkConf : bool -> World S -> Conf.
Variable conf_set : string -> PyVal -> Conf -> Conf.
Variable conf_contains : string -> Conf -> bool.
Variable ensure_initialized : Conf -> Eff S unit.
Variable Jar : Type.
Variable search_jar : Eff S (option Jar).
Variable addJarToCurrentClassLoader : Jar -> Eff S unit.
Variable new_PySparkSession : Conf -> Eff S unit.

Definition default_conf : list (string * PyVal) :=
  [("spark.plugins",
    PyStr "org.apache.spark.sql.connect.SparkConnectPlugin")].

(** Lines 504-514: [overwrite_conf], which is [opts] itself, after the
    three assignments. *)
Definition overwrite_conf (master : string) (opts : list (string * PyVal))
  (w : World S) : list (string * PyVal) :=
  let o1 := dict_set String.eqb "spark.master" (PyStr master) opts in
  let o2 := dict_set String.eqb "spark.local.connect" (PyStr "1") o1 in
  if in_environ "SPARK_TESTING" w
  then dict_set String.eqb "spark.connect.grpc.binding.port" (PyStr "0") o2
  else o2.

(** Lines 516-523. *)
Definition create_conf (overwrite : list (string * PyVal))
  (loadDefaults : bool) (w : World S) : Conf :=
  let conf :=
    fold_left (fun c kv => conf_set (fst kv) (snd kv) c) overwrite
              (SparkConf loadDefaults w) in
  fold_left (fun c kv => if conf_contains (fst kv) c then c
                         else conf_set (fst kv) (snd kv) c)
            default_conf conf.

(** Lines 543-564: the jar is searched and added; an [ImportError] is
    passed over. *)
Definition add_connect_jar : Eff S unit :=
  fun w =>
    match (connect_jar <~ search_jar ;;
           match connect_jar with
           | None => eff_ret tt
           | Some jar => addJarToCurrentClassLoader jar
           end) w with
    | (Raises (ImportError _), w') => (Returns tt, w')
    | r => r
    end.

(** Lines 533-570: the body of the [try]. *)
Definition start_body (overwrite : list (string * PyVal))
  (is_dev_mode : bool) (origin_remote : option string) : Eff S unit :=
  _ <~ match origin_remote with
       | Some _ => del_environ "SPARK_REMOTE"
       | None => eff_ret tt
       end ;;
  _ <~ (fun w => ensure_initialized (create_conf overwrite false w) w) ;;
  _ <~ (if is_dev_mode then add_connect_jar else eff_ret tt) ;;
  fun w => new_PySparkSession (create_conf overwrite true w) w.

(** Lines 571-573: the [finally]. *)
Definition restore_remote (origin_remote : option string) : Eff S unit :=
  match origin_remote with
  | Some r => set_environ "SPARK_REMOTE" r
  | None => eff_ret tt
  end.

(** Lines 500-575.  The result is also [opts] as the call leaves it. *)
Definition _start_connect_server (master : string)
  (opts : list (string * PyVal)) (w : World S)
  : Outcome unit * World S * list (string * PyVal) :=
  if live_session w then
    (Raises (RuntimeError
               "There should not be an existing Spark Session or Spark Context."),
     w, opts)
  else
    let overwrite := overwrite_conf master opts w in
    let is_dev_mode := version_is_dev || in_environ "SPARK_TESTING" w in
    let origin_remote := dict_get String.eqb "SPARK_REMOTE" (environ w) in
    match try_finally (start_body overwrite is_dev_mode origin_remote)
                      (restore_remote origin_remote) w with
    | (r, w') => (r, w', overwrite)
    end.

End SessionMethods.


(** *** Examples for the builder, [stop] and the local server *)

Definition str_of (v : PyVal) : option string :=
  match v with PyStr s => Some s | _ => None end.

Definition client_of (connectionString : option string)
  : Outcome (option string) :=
  Returns connectionString.

Definition local_world : World unit :=
  mkWorld [("SPARK_LOCAL_REMOTE", "1"); ("SPARK_REMOTE", "sc://localhost")]
          tt.

Definition local_world_without_remote : World unit :=
  mkWorld [("SPARK_LOCAL_REMOTE", "1")] tt.

Definition quiet : Eff unit unit := eff_ret tt.

Definition no_active_session : Eff unit (option unit) := eff_ret None.

Definition failing (msg : string) : Eff unit unit :=
  fun w => (Raises (OtherException msg), w).

Definition interrupted : Eff unit unit :=
  fun w => (Raises KeyboardInterrupt, w).

Definition no_testing_module : Eff unit (option unit) :=
  fun w => (Raises (ImportError "No module named 'pyspark.testing'"), w).

Definition one_row_1 : list PyVal := [PyTuple [PyInt 1]].

Definition frame_one_column : PandasFrame :=
  mkFrame [mkSeries "x" false [PyInt 1]] 1.


(** ** Facts on [createDataFrame], whatever the imports do *)

Section SessionFacts.

Context `{Imported}.

(** C10: a Spark Connect [DataFrame] given as [data] is refused with the
    [TypeError] "data is already a DataFrame", whatever the schema and
    whatever the imported functions are: none of them is reached. *)
Theorem createDataFrame_of_DataFrame (schema : Schema) :
  createDataFrame ConnectDataFrame schema
  = Raise (TypeError "data is already a DataFrame").
Proof. reflexivity. Qed.


Lemma declares_num_cols (schema : Schema) (n : nat) :
  declares schema n -> _num_cols (schema_locals schema) = Some n.
Proof.
  intros [fields | t Ht | names]; try reflexivity.
  destruct t; try discriminate Ht; reflexivity.
Qed.

(** A non-empty input goes through [build_table] and [finish]. *)
Lemma createDataFrame_built (data : Data) (schema : Schema)
  (tbl : Table) (cols : option (list string)) :
  is_empty_sized data = Ok false ->
  build_table data schema (schema_locals schema) = Ok (tbl, cols) ->
  createDataFrame data schema = finish tbl cols (schema_locals schema).
Proof.
  intros Hlen Hbuild. unfold createDataFrame.
  destruct data; try discriminate Hbuild;
    rewrite Hlen; cbn [bind]; rewrite Hbuild; reflexivity.
Qed.

(** C3: when the caller declared a number of columns [n] (the number of
    fields of a struct schema, 1 for an atomic type, the length of a list
    of names) and the table built from a non-empty input has another
    number of columns, [createDataFrame] fails with the [ValueError]
    "Length mismatch: Expected axis has n elements, new values have m
    elements", [m] being the number of columns of the table. *)
Theorem createDataFrame_length_mismatch (data : Data) (schema : Schema)
  (tbl : Table) (cols : option (list string)) (n : nat) :
  is_empty_sized data = Ok false ->
  build_table data schema (schema_locals schema) = Ok (tbl, cols) ->
  declares schema n ->
  n <> num_columns tbl ->
  createDataFrame data schema
  = Raise (ValueError
             ("Length mismatch: Expected axis has " ++ str_nat n
              ++ " elements, new values have "
              ++ str_nat (num_columns tbl) ++ " elements")).
Proof.
  intros Hlen Hbuild Hn Hneq.
  rewrite (createDataFrame_built _ _ Hlen Hbuild).
  unfold finish. rewrite (declares_num_cols Hn).
  apply Nat.eqb_neq in Hneq. rewrite Hneq. reflexivity.
Qed.

(** *** Arrays *)

Ltac dims Hd :=
  rewrite Hd in *;
  change (1 =? 1)%nat with true in *; change (1 =? 2)%nat with false in *;
  change (2 =? 1)%nat with false in *; change (2 =? 2)%nat with true in *;
  cbn [negb andb orb] in *.

Lemma array_not_empty (a : ndarray) :
  shape0 a <> 0 -> is_empty_sized (NdArray a) = Ok false.
Proof.
  unfold shape0, is_empty_sized. destruct (shape a) as [|n rest]; cbn.
  - intros Hn. now elim Hn.
  - intros Hn. apply Nat.eqb_neq in Hn. now rewrite Hn.
Qed.

Lemma createDataFrame_array (a : ndarray) (schema : Schema) :
  shape0 a <> 0 ->
  createDataFrame (NdArray a) schema
  = '(tbl, cols) <- from_ndarray a (schema_locals schema) ;;
    finish tbl cols (schema_locals schema).
Proof.
  intros Hn. unfold createDataFrame.
  rewrite (array_not_empty _ Hn). reflexivity.
Qed.

Lemma length_names_1_to (N : nat) : length (names_1_to N) = N.
Proof. unfold names_1_to. now rewrite length_map, length_seq. Qed.

Lemma length_default_array_cols (a : ndarray) :
  ndim a = 1 \/ ndim a = 2 ->
  length (default_array_cols a) = array_width a.
Proof.
  unfold default_array_cols, array_width. intros [Hd | Hd]; dims Hd.
  - reflexivity.
  - destruct (Nat.eqb_spec (shape1 a) 1) as [-> | _]; [reflexivity|].
    apply length_names_1_to.
Qed.

Lemma length_array_arrays (a : ndarray) :
  length (array_arrays a) = array_width a.
Proof.
  unfold array_arrays, array_width.
  destruct (ndim a =? 1)%nat; [reflexivity|].
  now rewrite length_map, length_seq.
Qed.

(** With names of the right number, the table of a 1-D or 2-D array has
    those names and the columns of the array. *)
Lemma from_ndarray_Ok (a : ndarray) (L : Locals) (cols : list string) :
  ndim a = 1 \/ ndim a = 2 ->
  match _cols L with Some c => c | None => default_array_cols a end = cols ->
  length cols = array_width a ->
  from_ndarray a L = Ok (mkTable cols (array_arrays a), Some cols).
Proof.
  intros Hd Hcols Hlen. unfold from_ndarray. rewrite Hcols.
  unfold array_width, array_arrays in *.
  destruct Hd as [Hd | Hd]; dims Hd.
  - rewrite Hlen. cbn. unfold Table_from_arrays. rewrite Hlen. reflexivity.
  - rewrite Hlen, Nat.eqb_refl. cbn [negb].
    unfold Table_from_arrays.
    rewrite Hlen, length_map, length_seq, Nat.eqb_refl. reflexivity.
Qed.

(** C8, amended: an array whose first dimension is not zero and whose
    number of dimensions is neither 1 nor 2 is refused with the
    [ValueError] "NumPy array input should be of 1 or 2 dimensions.",
    whatever its elements, the schema and the imports: no column is
    built. *)
Theorem createDataFrame_array_dimensions (a : ndarray) (schema : Schema) :
  shape0 a <> 0 ->
  ndim a <> 1 ->
  ndim a <> 2 ->
  createDataFrame (NdArray a) schema
  = Raise (ValueError "NumPy array input should be of 1 or 2 dimensions.").
Proof.
  intros Hn H1 H2. rewrite (createDataFrame_array _ _ Hn).
  unfold from_ndarray.
  apply Nat.eqb_neq in H1, H2. rewrite H1, H2. reflexivity.
Qed.

(** C7, amended: for a 1-D or 2-D array whose first dimension is not
    zero and a list of names whose length is not the number of columns
    of the array (1 for a 1-D array, the length of the second axis for a
    2-D one), [createDataFrame] fails with a length-mismatch
    [ValueError]. *)
Theorem createDataFrame_array_names_mismatch (a : ndarray)
  (names : list string) :
  shape0 a <> 0 ->
  ndim a = 1 \/ ndim a = 2 ->
  length names <> array_width a ->
  createDataFrame (NdArray a) (SchemaNames names)
  = Raise (ValueError
             (if (ndim a =? 1)%nat
              then msg_length_mismatch_1d (length names)
              else msg_length_mismatch (shape1 a) (length names))).
Proof.
  intros Hn Hd Hlen. rewrite (createDataFrame_array _ _ Hn).
  unfold from_ndarray, array_width in *. cbn [schema_locals _cols].
  destruct Hd as [Hd | Hd]; dims Hd.
  - destruct (Nat.eqb_spec 1 (length names)) as [E | _];
      [now elim Hlen | reflexivity].
  - destruct (Nat.eqb_spec (shape1 a) (length names)) as [E | _];
      [now elim Hlen | reflexivity].
Qed.

(** C5, amended: for a 1-D or 2-D array and a schema argument that is
    not a list of names, the table has the columns of the array under the
    name [value] when the array is 1-D or has exactly one column, and
    under [_1] to [_N] otherwise, [N] being the length of the second
    axis; when moreover no schema is given and the first dimension is not
    zero, that table, renamed to the same names, is the result. *)
Theorem createDataFrame_array_default_names (a : ndarray)
  (schema : Schema) :
  (forall names, schema <> SchemaNames names) ->
  ndim a = 1 \/ ndim a = 2 ->
  let cols := if (ndim a =? 1)%nat || (shape1 a =? 1)%nat
              then ["value"] else names_1_to (shape1 a) in
  let tbl := mkTable cols (array_arrays a) in
  build_table (NdArray a) schema (schema_locals schema)
  = Ok (tbl, Some cols)
  /\ (shape0 a <> 0 ->
      createDataFrame (NdArray a) SchemaNone
      = Ok (match cols with
            | [] => withPlan (LocalRelation (Some tbl) None)
            | _ => toDF (withPlan (LocalRelation (Some tbl) None)) cols
            end)).
Proof.
  intros Hschema Hd cols tbl.
  assert (Hbuild : forall L, _cols L = None ->
                   from_ndarray a L = Ok (tbl, Some cols)).
  { intros L HL. apply from_ndarray_Ok; trivial.
    - now rewrite HL.
    - apply (length_default_array_cols _ Hd). }
  split.
  - cbn [build_table]. apply Hbuild.
    destruct schema as [ | t | ddl | names]; try reflexivity.
    + cbn. now destruct (is_AtomicType t || is_StructType t).
    + now elim (Hschema names).
  - intros Hn. rewrite (createDataFrame_array _ _ Hn).
    rewrite Hbuild by reflexivity. cbn.
    unfold relation_of. cbn. now destruct cols.
Qed.

End SessionFacts.

(** ** The merge of the design document *)

Lemma merge_type_struct (f1 f2 : list StructField) :
  merge_type (StructType f1) (StructType f2)
  = StructType (merge_fields merge_type f1 f2).
Proof.
  reflexivity.
Qed.

Lemma tz_eqb_spec (a b : option string) : reflect (a = b) (tz_eqb a b).
Proof.
  destruct a as [x|], b as [y|]; cbn; try (constructor; congruence).
  destruct (String.eqb_spec x y); constructor; congruence.
Qed.

Lemma is_NullType_merge (a b : DataType) :
  is_NullType (merge_type a b) = is_NullType a && is_NullType b.
Proof.
  destruct a, b; cbn; try reflexivity.
  - now destruct (width =? width0)%nat.
  - now destruct (tz_eqb tz tz0).
Qed.

(** *** Looking a name up in merged fields *)

Section MergeFields.

Variable m : DataType -> DataType -> DataType.

Lemma name_merge_field (f2 : list StructField) (f : StructField) :
  name (merge_field m f2 f) = name f.
Proof. unfold merge_field. now destruct (find_field (name f) f2). Qed.

Lemma find_field_name (n : string) (l : list StructField) (f : StructField) :
  find_field n l = Some f -> name f = n.
Proof.
  unfold find_field. intros Hf. apply find_some in Hf.
  now apply String.eqb_eq.
Qed.

Lemma find_field_map (h : StructField -> StructField) (n : string)
  (l : list StructField) :
  (forall f, name (h f) = name f) ->
  find_field n (map h l) = option_map h (find_field n l).
Proof.
  intros Hh. unfold find_field.
  induction l as [|f l IH]; [reflexivity|].
  cbn. rewrite Hh. now destruct (String.eqb (name f) n).
Qed.

Lemma find_field_app (n : string) (l r : list StructField) :
  find_field n (l ++ r)
  = match find_field n l with
    | Some f => Some f
    | None => find_field n r
    end.
Proof.
  unfold find_field. induction l as [|f l IH]; [reflexivity|].
  cbn. now destruct (String.eqb (name f) n).
Qed.

Lemma has_field_find (l : list StructField) (g : StructField) :
  has_field l g
  = match find_field (name g) l with Some _ => true | None => false end.
Proof.
  unfold has_field, fieldNames, find_field.
  induction l as [|f l IH]; [reflexivity|].
  cbn. rewrite (String.eqb_sym (name g) (name f)).
  now destruct (String.eqb (name f) (name g)).
Qed.

Lemma find_field_filter (n : string) (p : StructField -> bool) (b : bool)
  (l : list StructField) :
  (forall g, name g = n -> p g = b) ->
  find_field n (filter p l) = if b then find_field n l else None.
Proof.
  intros Hp. unfold find_field.
  induction l as [|g l IH]; [now destruct b|].
  cbn [filter find].
  destruct (String.eqb_spec (name g) n) as [Hn | Hn].
  - rewrite (Hp g Hn). destruct b; [|exact IH].
    cbn [find]. apply String.eqb_eq in Hn. now rewrite Hn.
  - destruct (p g); [|exact IH].
    cbn [find]. apply String.eqb_neq in Hn. now rewrite Hn.
Qed.

Lemma find_field_only_right (n : string) (f1 f2 : list StructField) :
  find_field n (only_right f1 f2)
  = match find_field n f1 with
    | Some _ => None
    | None => option_map make_nullable (find_field n f2)
    end.
Proof.
  unfold only_right. rewrite find_field_map by reflexivity.
  rewrite (@find_field_filter n _
             (match find_field n f1 with Some _ => false | None => true end)).
  - now destruct (find_field n f1).
  - intros g <-. rewrite has_field_find.
    now destruct (find_field (name g) f1).
Qed.

Lemma find_field_merge_fields (n : string) (f1 f2 : list StructField) :
  find_field n (merge_fields m f1 f2)
  = match find_field n f1 with
    | Some f => Some (merge_field m f2 f)
    | None => option_map make_nullable (find_field n f2)
    end.
Proof.
  unfold merge_fields.
  rewrite find_field_app, find_field_map, find_field_only_right
    by apply name_merge_field.
  now destruct (find_field n f1).
Qed.

Lemma has_field_merge_fields (f1 f2 : list StructField) (g : StructField) :
  has_field (merge_fields m f1 f2) g = has_field f1 g || has_field f2 g.
Proof.
  rewrite !has_field_find, find_field_merge_fields.
  destruct (find_field (name g) f1); [reflexivity|].
  now destruct (find_field (name g) f2).
Qed.

End MergeFields.

(** *** Associativity *)

Lemma filter_map_same (A : Type) (p : A -> bool) (h : A -> A) (l : list A) :
  (forall x, p (h x) = p x) -> filter p (map h l) = map h (filter p l).
Proof.
  intros Hp. induction l as [|x l IH]; [reflexivity|].
  cbn. rewrite Hp, IH. now destruct (p x).
Qed.

Lemma filter_twice (A : Type) (p q : A -> bool) (l : list A) :
  filter p (filter q l) = filter (fun x => q x && p x) l.
Proof.
  induction l as [|x l IH]; [reflexivity|].
  cbn. destruct (q x); cbn; now rewrite IH.
Qed.

Lemma has_field_by_name (l : list StructField) (g g' : StructField) :
  name g = name g' -> has_field l g = has_field l g'.
Proof. unfold has_field. now intros ->. Qed.

Section FieldsAssociativity.

Variable m : DataType -> DataType -> DataType.
Hypothesis m_null :
  forall a b, is_NullType (m a b) = is_NullType a && is_NullType b.

Lemma merge_field_make_nullable (f3 : list StructField) (g : StructField) :
  merge_field m f3 (make_nullable g) = make_nullable (merge_field m f3 g).
Proof.
  unfold merge_field. cbn [name make_nullable dataType].
  now destruct (find_field (name g) f3).
Qed.

(** A field of the left struct, merged with the two others one after the
    other or with their merge. *)
Lemma merge_field_assoc (f2 f3 : list StructField) (f : StructField) :
  (forall b c, m (m (dataType f) b) c = m (dataType f) (m b c)) ->
  merge_field m f3 (merge_field m f2 f)
  = merge_field m (merge_fields m f2 f3) f.
Proof.
  intros Hf.
  unfold merge_field at 1 3.
  rewrite name_merge_field, find_field_merge_fields.
  unfold merge_field.
  destruct (find_field (name f) f2) as [g|] eqn:Hg.
  - rewrite (find_field_name _ _ Hg).
    destruct (find_field (name f) f3) as [h|]; unfold make_nullable;
      cbn [name dataType nullable]; rewrite ?Hf; f_equal;
      unfold null_flag; cbn [dataType nullable]; rewrite ?m_null;
      destruct (nullable f), (is_NullType (dataType f)), (nullable g),
        (is_NullType (dataType g)); try reflexivity;
      cbn; now rewrite ?orb_true_r, ?orb_false_r.
  - destruct (find_field (name f) f3) as [h|]; unfold make_nullable;
      cbn [option_map name dataType nullable]; f_equal;
      unfold null_flag; cbn [dataType nullable];
      now rewrite ?orb_true_r.
Qed.

Lemma only_right_app (f1 l r : list StructField) :
  only_right f1 (l ++ r) = (only_right f1 l ++ only_right f1 r)%list.
Proof. unfold only_right. now rewrite filter_app, map_app. Qed.

(** The fields only the middle struct has. *)
Lemma merge_only_right (f1 f2 f3 : list StructField) :
  map (merge_field m f3) (only_right f1 f2)
  = only_right f1 (map (merge_field m f3) f2).
Proof.
  unfold only_right. rewrite filter_map_same, !map_map.
  - apply map_ext. intros g. apply merge_field_make_nullable.
  - intros g. f_equal. apply has_field_by_name, name_merge_field.
Qed.

(** The fields only the right struct has. *)
Lemma only_right_merge_fields (f1 f2 f3 : list StructField) :
  only_right (merge_fields m f1 f2) f3
  = only_right f1 (only_right f2 f3).
Proof.
  unfold only_right.
  rewrite filter_map_same, filter_twice, map_map.
  - f_equal. apply filter_ext. intros g.
    rewrite has_field_merge_fields.
    now destruct (has_field f1 g), (has_field f2 g).
  - reflexivity.
Qed.

Lemma merge_fields_assoc (f1 f2 f3 : list StructField) :
  Forall (fun f => forall b c,
              m (m (dataType f) b) c = m (dataType f) (m b c)) f1 ->
  merge_fields m (merge_fields m f1 f2) f3
  = merge_fields m f1 (merge_fields m f2 f3).
Proof.
  intros Hf1.
  change (merge_fields m (merge_fields m f1 f2) f3)
    with (map (merge_field m f3)
              (map (merge_field m f2) f1 ++ only_right f1 f2)
          ++ only_right (merge_fields m f1 f2) f3)%list.
  change (merge_fields m f1 (merge_fields m f2 f3))
    with (map (merge_field m (merge_fields m f2 f3)) f1
          ++ only_right f1
               (map (merge_field m f3) f2 ++ only_right f2 f3))%list.
  rewrite map_app, merge_only_right, only_right_merge_fields,
    only_right_app, <- app_assoc.
  f_equal.
  rewrite map_map. apply map_ext_in. intros f Hin.
  apply merge_field_assoc.
  rewrite Forall_forall in Hf1. now apply Hf1.
Qed.

End FieldsAssociativity.

Ltac split_width_tz :=
  repeat match goal with
    | |- context [if (?x =? ?y)%nat then _ else _] =>
        destruct (Nat.eqb_spec x y); subst; cbn [merge_type]
    | |- context [if tz_eqb ?x ?y then _ else _] =>
        destruct (tz_eqb_spec x y); subst; cbn [merge_type]
    end.

Lemma merge_type_assoc (a b c : DataType) :
  merge_type (merge_type a b) c = merge_type a (merge_type b c).
Proof.
  revert b c.
  induction a as [ | | w | w | | | tz | e IHe | f1 IHf | ]
    using DataType_fields_ind; intros b c.
  9: { destruct b as [ | | | | | | | | f2 | ];
         destruct c as [ | | | | | | | | f3 | ]; try reflexivity.
       all: try (rewrite !merge_type_struct; f_equal;
                 apply merge_fields_assoc;
                 [apply is_NullType_merge | exact IHf]).
       all: cbn [merge_type]; split_width_tz; reflexivity. }
  8: { destruct b as [ | | | | | | | e2 | | ];
         destruct c as [ | | | | | | | e3 | | ]; try reflexivity.
       all: try (cbn [merge_type]; f_equal; apply IHe).
       all: cbn [merge_type]; split_width_tz; reflexivity. }
  all: destruct b; try reflexivity; destruct c; try reflexivity;
    cbn [merge_type]; split_width_tz;
    try reflexivity; try congruence; try (f_equal; lia).
Qed.

(** *** The reduction over the rows *)

Lemma reduce_merge_type_fold (acc : DataType) (rows : list PyVal)
  (names : option (list string)) :
  @reduce_merge_type spec_imports acc rows names
  = Ok (fold_left merge_type
          (map (fun row => infer_schema row names) rows) acc).
Proof.
  revert acc. induction rows as [|row rows IH]; intros acc; [reflexivity|].
  cbn. apply IH.
Qed.

(** C9: the merge of the design document is associative, on all types
    and so on the types inferred within one ingestion, and the schema
    [_inferSchemaFromList] returns for the rows [row :: rows] is the left
    fold of the merge over the types inferred for [rows], from the type
    inferred for [row]. *)
Theorem merge_type_associative_left_fold :
  (forall a b c : DataType,
      merge_type (merge_type a b) c = merge_type a (merge_type b c))
  /\ (forall (row : PyVal) (rows : list PyVal) (names : option (list string)),
        @_inferSchemaFromList spec_imports (row :: rows) names
        = Ok (fold_left merge_type
                (map (fun r => infer_schema r names) rows)
                (infer_schema row names))).
Proof.
  split.
  - exact merge_type_assoc.
  - intros row rows names. cbn. apply reduce_merge_type_fold.
Qed.

(** ** Dict rows *)

Lemma leb_compare (a b : string) :
  String.leb a b = true <-> String.compare a b <> Gt.
Proof.
  unfold String.leb. destruct (String.compare a b); split; congruence.
Qed.

Lemma leb_trans (a b c : string) :
  String.leb a b = true -> String.leb b c = true -> String.leb a c = true.
Proof.
  rewrite !leb_compare. intros Hab Hbc.
  destruct (String.compare a b) eqn:Eab; [ | | congruence].
  - apply String.compare_eq_iff in Eab. now subst.
  - destruct (String.compare b c) eqn:Ebc; [ | | congruence].
    + apply String.compare_eq_iff in Ebc. subst. now rewrite Eab.
    + apply OrderedTypeEx.String_as_OT.cmp_lt in Eab, Ebc.
      pose proof (OrderedTypeEx.String_as_OT.lt_trans _ _ _ Eab Ebc) as Hac.
      apply OrderedTypeEx.String_as_OT.cmp_lt in Hac.
      unfold OrderedTypeEx.String_as_OT.cmp in Hac. now rewrite Hac.
Qed.

Lemma insert_item_perm (kv : string * PyVal) (l : list (string * PyVal)) :
  Permutation (kv :: l) (insert_item kv l).
Proof.
  induction l as [|kv' l IH]; cbn; [reflexivity|].
  destruct (String.leb (fst kv) (fst kv')); [reflexivity|].
  rewrite perm_swap. now constructor.
Qed.

Lemma sorted_items_perm (l : list (string * PyVal)) :
  Permutation l (sorted_items l).
Proof.
  induction l as [|kv l IH]; cbn; [constructor|].
  rewrite <- insert_item_perm. now constructor.
Qed.

Lemma insert_item_sorted (kv : string * PyVal) (l : list (string * PyVal)) :
  Sorted key_le l -> Sorted key_le (insert_item kv l).
Proof.
  induction l as [|kv' l IH]; intros Hl; cbn.
  - repeat constructor.
  - destruct (String.leb (fst kv) (fst kv')) eqn:Hle.
    + constructor; [exact Hl | now constructor].
    + assert (Hge : key_le kv' kv).
      { unfold key_le. destruct (String.leb_total (fst kv) (fst kv')); congruence. }
      inversion Hl as [|? ? Hl' Hhd]; subst.
      constructor; [now apply IH|].
      destruct l as [|kv'' l]; cbn.
      * now constructor.
      * destruct (String.leb (fst kv) (fst kv'')); constructor; trivial.
        now inversion Hhd.
Qed.

Lemma sorted_items_sorted (l : list (string * PyVal)) :
  Sorted key_le (sorted_items l).
Proof.
  induction l as [|kv l IH]; cbn; [constructor|].
  now apply insert_item_sorted.
Qed.

Lemma keys_sorted (l : list (string * PyVal)) :
  Sorted key_le l ->
  StronglySorted (fun a b => String.leb a b = true) (keys l).
Proof.
  intros Hl. apply Sorted_StronglySorted.
  - intros a b c. apply leb_trans.
  - induction Hl as [|kv l Hl IH Hhd]; cbn; constructor; trivial.
    destruct Hhd; cbn; now constructor.
Qed.

(** Two lists in order that are permutations of each other are equal. *)
Lemma sorted_keys_unique (l1 l2 : list string) :
  StronglySorted (fun a b => String.leb a b = true) l1 ->
  StronglySorted (fun a b => String.leb a b = true) l2 ->
  Permutation l1 l2 ->
  l1 = l2.
Proof.
  intros H1. revert l2.
  induction H1 as [|a l1 Hl1 IH Ha]; intros l2 H2 Hperm.
  - now apply Permutation_nil in Hperm.
  - destruct H2 as [|b l2 Hl2 Hb].
    + apply Permutation_sym, Permutation_nil in Hperm. discriminate.
    + assert (Hab : a = b).
      { assert (Hin_a : In a (b :: l2))
          by (apply (Permutation_in _ Hperm); now left).
        assert (Hin_b : In b (a :: l1))
          by (apply (Permutation_in _ (Permutation_sym Hperm)); now left).
        destruct Hin_a as [-> | Hin_a]; [reflexivity|].
        destruct Hin_b as [-> | Hin_b]; [reflexivity|].
        rewrite Forall_forall in Ha, Hb.
        apply String.leb_antisym; auto. }
      subst b. f_equal. apply IH; trivial.
      now apply Permutation_cons_inv in Hperm.
Qed.

(** Dicts with the same keys, in whatever order, have the same keys in
    the same order once sorted. *)
Lemma sorted_items_align (d1 d2 : list (string * PyVal)) :
  Permutation (keys d1) (keys d2) ->
  keys (sorted_items d1) = keys (sorted_items d2).
Proof.
  intros Hperm.
  apply sorted_keys_unique; try apply keys_sorted, sorted_items_sorted.
  unfold keys.
  rewrite <- (Permutation_map fst (sorted_items_perm d1)).
  rewrite <- (Permutation_map fst (sorted_items_perm d2)).
  exact Hperm.
Qed.

Lemma mapM_sort_dict (dicts : list (list (string * PyVal))) :
  mapM sort_dict (map PyDict dicts)
  = Ok (map (fun d => PyDict (sorted_items d)) dicts).
Proof.
  induction dicts as [|d dicts IH]; [reflexivity|].
  cbn. cbn in IH. now rewrite IH.
Qed.

(** ** Rows *)

Lemma createDataFrame_rows `{Imported} (sized : bool) (items : list PyVal)
  (schema : Schema) :
  items <> [] ->
  createDataFrame (Iterable sized items) schema
  = '(tbl, cols) <- from_rows items (schema_locals schema) ;;
    finish tbl cols (schema_locals schema).
Proof.
  intros Hitems. unfold createDataFrame, is_empty_sized.
  destruct items as [|d0 items]; [contradiction|].
  now destruct sized.
Qed.

(** C2: the rows of a non-empty collection of dicts are handed to
    inference and to the conversion with their items sorted by key; the
    sorted items of a dict are in lexicographic order of their keys and
    are the items of the dict; two dicts with the same keys, in whatever
    order, have the same keys in the same order once sorted.  The rows
    [{"b": 1, "a": 2}] and [{"a": 3, "b": 4}] give the schema of fields
    [a], [b] and a table of two columns [a], [b] and two rows, [(2, 1)] and
    [(3, 4)]. *)
Theorem dict_rows_sorted_by_key (I : Imported)
  (dicts : list (list (string * PyVal))) (L : Locals) :
  dicts <> [] ->
  @from_rows I (map PyDict dicts) L
  = (let _data := map (fun d => PyDict (sorted_items d)) dicts in
     inferred <- _inferSchemaFromList _data (_cols L) ;;
     used <- resolve_schema inferred L ;;
     tbl <- LocalDataToArrowConversion_convert _data used ;;
     Ok (tbl, _cols L))
  /\ Forall (fun d => Sorted key_le (sorted_items d)
                      /\ Permutation d (sorted_items d)) dicts
  /\ (forall d1 d2, Permutation (keys d1) (keys d2) ->
                    keys (sorted_items d1) = keys (sorted_items d2))
  /\ (_data <- normalize_rows dicts_ba ;;
      @_inferSchemaFromList spec_imports _data None)
     = Ok (StructType [mkField "a" (IntegerType 8) false;
                       mkField "b" (IntegerType 8) false])
  /\ (let tbl := mkTable ["a"; "b"] [[CInt 2; CInt 3]; [CInt 1; CInt 4]] in
      convert (Iterable true dicts_ba) SchemaNone
      = Ok (withPlan (LocalRelation (Some tbl) None))
      /\ table_rows tbl = [[CInt 2; CInt 1]; [CInt 3; CInt 4]]).
Proof.
  intros Hdicts. repeat split.
  - unfold from_rows, normalize_rows.
    destruct dicts as [|d dicts]; [contradiction|].
    change (map PyDict (d :: dicts)) with (PyDict d :: map PyDict dicts).
    cbn [is_dict].
    change (PyDict d :: map PyDict dicts) with (map PyDict (d :: dicts)).
    now rewrite mapM_sort_dict.
  - apply Forall_forall. intros d _. split.
    + apply sorted_items_sorted.
    + apply sorted_items_perm.
  - apply sorted_items_align.
Qed.

(** ** The materializer of the design document *)

Lemma mapMi_length (A B : Type) (f : nat -> A -> Res B) (l : list A) :
  forall (i : nat) (bs : list B),
    mapMi f i l = Ok bs -> length bs = length l.
Proof.
  induction l as [|a l IH]; intros i bs; cbn.
  - now intros [= <-].
  - destruct (f i a) as [b|e]; [|discriminate]. cbn.
    destruct (mapMi f (S i) l) as [bs'|e] eqn:Hl; [|discriminate]. cbn.
    intros [= <-]. cbn. f_equal. now apply (IH (S i)).
Qed.

Lemma mapMi_nth_error (A B : Type) (f : nat -> A -> Res B) (l : list A) :
  forall (i k : nat) (bs : list B) (a : A),
    mapMi f i l = Ok bs ->
    nth_error l k = Some a ->
    exists b, nth_error bs k = Some b /\ f (i + k) a = Ok b.
Proof.
  induction l as [|a0 l IH]; intros i k bs a; cbn.
  - destruct k; discriminate.
  - destruct (f i a0) as [b0|e] eqn:Hf; [|discriminate]. cbn.
    destruct (mapMi f (S i) l) as [bs'|e] eqn:Hl; [|discriminate]. cbn.
    intros [= <-]. destruct k as [|k]; cbn.
    + intros [= <-]. exists b0. now rewrite Nat.add_0_r.
    + intros Hk. destruct (IH (S i) k bs' a Hl Hk) as [b [Hb Hfb]].
      exists b. split; [exact Hb|]. now rewrite Nat.add_succ_r.
Qed.

Lemma coerce_None (t : DataType) : coerce t PyNone = Some CNull.
Proof. now destruct t. Qed.

(** The table of a struct has one column per field, under its name. *)
Lemma materialize_columns (data : list PyVal) (fields : list StructField)
  (tbl : Table) :
  materialize data (StructType fields) = Ok tbl ->
  column_names tbl = fieldNames fields
  /\ num_columns tbl = length fields.
Proof.
  unfold materialize.
  destruct (mapMi _ 0 fields) as [cols|e] eqn:Hcols; [|discriminate].
  cbn. intros [= <-]. split; [reflexivity|].
  unfold num_columns. cbn. now apply mapMi_length in Hcols.
Qed.

(** A value that is missing or [None] is a null in the column of its
    field. *)
Lemma materialize_null (data : list PyVal) (fields : list StructField)
  (tbl : Table) (i r : nat) (f : StructField) (row : PyVal) :
  materialize data (StructType fields) = Ok tbl ->
  nth_error fields i = Some f ->
  nth_error data r = Some row ->
  field_value row i (name f) = Some PyNone
  \/ field_value row i (name f) = None ->
  exists column, nth_error (columns tbl) i = Some column
                 /\ nth_error column r = Some CNull.
Proof.
  unfold materialize. intros Htbl Hf Hrow Hnone.
  destruct (mapMi _ 0 fields) as [cols|e] eqn:Hcols; [|discriminate].
  cbn in Htbl. injection Htbl as <-. cbn [columns].
  destruct (mapMi_nth_error _ _ _ _ Hcols Hf) as [column [Hcol Hcells]].
  exists column. split; [exact Hcol|].
  destruct (mapMi_nth_error _ _ _ _ Hcells Hrow) as [c [Hc Hcell]].
  rewrite Hc. f_equal.
  cbn in Hcell. unfold materialize_cell in Hcell.
  destruct Hnone as [Hv | Hv]; rewrite Hv in Hcell.
  - rewrite coerce_None in Hcell. congruence.
  - congruence.
Qed.

(** ** An undetermined schema *)

(** C1, amended: when the schema inferred for the rows still has a [Null]
    or a conflict in it, [convert] fails with the [ValueError] "Some of
    types cannot be determined after inferring, a StructType Schema is
    required in this case" unless the caller gave a struct schema; with a
    struct schema, the rows are materialized under that schema, the result
    is the table so obtained with that schema, or the error of the
    materialization when a value cannot be cast to the type of its field,
    and a [None] value is a null in the column of its field. *)
Theorem undetermined_schema_needs_struct (sized : bool)
  (items _data : list PyVal) (schema : Schema) (s : DataType) :
  normalize_rows items = Ok _data ->
  @_inferSchemaFromList spec_imports _data (_cols (schema_locals schema))
  = Ok s ->
  has_nulltype s = true ->
  ((forall fields, schema <> SchemaType (StructType fields)) ->
   convert (Iterable sized items) schema
   = Raise (ValueError
              ("Some of types cannot be determined after inferring, "
               ++ "a StructType Schema is required in this case")))
  /\ (forall fields, schema = SchemaType (StructType fields) ->
      convert (Iterable sized items) schema
      = (tbl <- materialize _data (StructType fields) ;;
         Ok (withPlan (LocalRelation (Some tbl)
                         (Some (JsonOf (StructType fields))))))
      /\ (forall tbl i r f row,
            materialize _data (StructType fields) = Ok tbl ->
            nth_error fields i = Some f ->
            nth_error _data r = Some row ->
            field_value row i (name f) = Some PyNone ->
            exists column, nth_error (columns tbl) i = Some column
                           /\ nth_error column r = Some CNull)).
Proof.
  intros Hdata Hs Hnull.
  assert (Hitems : items <> []) by (intros ->; discriminate Hdata).
  assert (Hconvert :
            convert (Iterable sized items) schema
            = '(tbl, cols) <-
                (used <- @resolve_schema spec_imports s (schema_locals schema) ;;
                 tbl <- materialize _data used ;;
                 Ok (tbl, _cols (schema_locals schema))) ;;
              finish tbl cols (schema_locals schema)).
  { unfold convert. rewrite (createDataFrame_rows _ _ Hitems).
    unfold from_rows. rewrite Hdata. cbn [bind]. rewrite Hs. reflexivity. }
  rewrite Hconvert. unfold resolve_schema.
  change (@_has_nulltype spec_imports s) with (has_nulltype s).
  rewrite Hnull. split.
  - intros Hschema.
    destruct schema as [ | t | ddl | names]; try reflexivity.
    cbn. destruct t; try reflexivity. now elim (Hschema fields).
  - intros fields ->. split.
    + cbn -[materialize].
      destruct (materialize _data (StructType fields)) as [tbl|e] eqn:Htbl;
        [|reflexivity].
      cbn -[materialize]. unfold finish. cbn -[materialize].
      destruct (materialize_columns _ _ Htbl) as [_ ->].
      now rewrite Nat.eqb_refl.
    + intros tbl i r f row Htbl Hf Hrow Hv.
      eapply materialize_null; eauto.
Qed.

(** ** Bare scalars *)

Lemma normalize_scalars (items : list PyVal) :
  Forall (fun v => is_scalar v = true) items ->
  items <> [] ->
  normalize_rows items = Ok (map (fun d => PyList [d]) items).
Proof.
  intros Hitems Hne. destruct items as [|d0 items]; [contradiction|].
  inversion Hitems as [|? ? Hd0 _]; subst.
  unfold normalize_rows. unfold is_scalar in Hd0. rewrite Hd0.
  now destruct d0.
Qed.

Lemma normalize_wrapped (items : list PyVal) :
  items <> [] ->
  normalize_rows (map (fun d => PyList [d]) items)
  = Ok (map (fun d => PyList [d]) items).
Proof. intros Hne. now destruct items. Qed.

(** The merge of structs of the one field [_1] is such a struct. *)
Lemma fold_single_position (rows : list PyVal) :
  forall (t : DataType) (n : bool),
  exists T N,
    fold_left merge_type
      (map (fun r => infer_schema r None)
           (map (fun d => PyList [d]) rows))
      (StructType [mkField "_1" t n])
    = StructType [mkField "_1" T N].
Proof.
  induction rows as [|d rows IH]; intros t n; cbn [map fold_left].
  - now exists t, n.
  - apply IH.
Qed.

(** C6, amended: each item of a collection of bare scalars is wrapped as
    a list of one element, which carries no name, and the collection is
    converted as the collection of those lists is, whatever the imports
    and the schema; with the inference of the design document and no
    schema, the single column of the result has the name of the first
    position of a row without names, [_1]. *)
Theorem scalars_wrapped_as_rows (I : Imported) (sized : bool)
  (items : list PyVal) (schema : Schema) :
  Forall (fun v => is_scalar v = true) items ->
  (items <> [] ->
   normalize_rows items = Ok (map (fun d => PyList [d]) items))
  /\ @createDataFrame I (Iterable sized items) schema
     = @createDataFrame I
         (Iterable sized (map (fun d => PyList [d]) items)) schema
  /\ (forall df, convert (Iterable sized items) SchemaNone = Ok df ->
                 exists tbl, df = withPlan (LocalRelation (Some tbl) None)
                             /\ column_names tbl = ["_1"]).
Proof.
  intros Hitems. split; [now apply normalize_scalars|]. split.
  - destruct items as [|d0 items]; [reflexivity|].
    rewrite !createDataFrame_rows by discriminate.
    unfold from_rows.
    rewrite (normalize_scalars Hitems), normalize_wrapped by discriminate.
    reflexivity.
  - intros df. unfold convert.
    destruct items as [|d0 items]; [now destruct sized|].
    rewrite createDataFrame_rows by discriminate.
    unfold from_rows. rewrite (normalize_scalars Hitems) by discriminate.
    cbn [bind map]. unfold _inferSchemaFromList.
    cbn [_infer_schema spec_imports bind].
    rewrite reduce_merge_type_fold.
    change (infer_schema (PyList [d0]) (_cols (schema_locals SchemaNone)))
      with (StructType [mkField "_1" (infer_type d0)
                                (is_NullType (infer_type d0))]).
    change (_cols (schema_locals SchemaNone)) with (@None (list string)).
    destruct (fold_single_position items (infer_type d0)
                (is_NullType (infer_type d0))) as [T [N ->]].
    cbn [bind]. unfold resolve_schema.
    destruct (_has_nulltype (StructType [mkField "_1" T N]));
      [discriminate|].
    cbn [bind LocalDataToArrowConversion_convert spec_imports].
    destruct (materialize _ (StructType [mkField "_1" T N]))
      as [tbl|e] eqn:Htbl; [|discriminate].
    cbn. intros [= <-]. exists tbl. split; [reflexivity|].
    now destruct (materialize_columns _ _ Htbl) as [-> _].
Qed.

(** ** The statements at concrete inputs *)

(** C1: the inferred schema of [("Alice", None, 80.1)] has a [Null]; with
    no schema the conversion is refused, with the schema of a string, an
    integer and a float the [None] is a null of the integer column. *)
Lemma undetermined_schema_alice :
  convert (Iterable true alice) SchemaNone
  = Raise (ValueError
             ("Some of types cannot be determined after inferring, "
              ++ "a StructType Schema is required in this case"))
  /\ convert (Iterable true alice) (SchemaType (StructType alice_schema))
     = Ok (withPlan
             (LocalRelation
                (Some (mkTable ["name"; "age"; "score"]
                         [[CStr "Alice"]; [CNull];
                          [CFloat 4635336953345500774]]))
                (Some (JsonOf (StructType alice_schema))))).
Proof.
  split.
  - eapply (proj1 (@undetermined_schema_needs_struct
                     true alice alice SchemaNone _
                     eq_refl eq_refl eq_refl)).
    intros fields. discriminate.
  - rewrite (proj1 (proj2 (@undetermined_schema_needs_struct
                             true alice alice
                             (SchemaType (StructType alice_schema)) _
                             eq_refl eq_refl eq_refl)
                      alice_schema eq_refl)).
    reflexivity.
Defined.

(** C1 as stated fails: the same row under a struct schema whose first
    field is an integer.  Its inferred schema has a [Null], a struct
    schema is supplied, and the conversion does not succeed: "Alice" cannot
    be cast to an integer. *)
Lemma undetermined_schema_struct_not_enough :
  (exists s, @_inferSchemaFromList spec_imports alice None = Ok s
             /\ has_nulltype s = true)
  /\ convert (Iterable true alice)
       (SchemaType (StructType alice_numeric_schema))
     = Raise (CoercionError "name" 0).
Proof.
  split; [|reflexivity].
  eexists. split; reflexivity.
Qed.

(** C2 at the rows [{"b": 1, "a": 2}], [{"a": 3, "b": 4}]. *)
Lemma dict_rows_sorted_by_key_ba :
  @from_rows spec_imports dicts_ba (schema_locals SchemaNone)
  = Ok (mkTable ["a"; "b"] [[CInt 2; CInt 3]; [CInt 1; CInt 4]], None).
Proof.
  refine (eq_trans
            (proj1 (@dict_rows_sorted_by_key spec_imports
                      [[("b", PyInt 1); ("a", PyInt 2)];
                       [("a", PyInt 3); ("b", PyInt 4)]]
                      (schema_locals SchemaNone) _))
            eq_refl).
  discriminate.
Defined.

(** C3 at a row of two values under a schema of three fields. *)
Lemma createDataFrame_length_mismatch_3_2 :
  convert (Iterable true two_columns) (SchemaType (StructType alice_schema))
  = Raise (ValueError
             "Length mismatch: Expected axis has 3 elements, new values have 2 elements").
Proof.
  refine (@createDataFrame_length_mismatch spec_imports
            (Iterable true two_columns)
            (SchemaType (StructType alice_schema))
            (mkTable ["_1"; "_2"] [[CInt 1]; [CInt 2]]) None 3
            eq_refl eq_refl (declares_struct alice_schema) _).
  cbn. lia.
Defined.


(** C5 at an array of shape (3, 2). *)
Lemma createDataFrame_array_3x2 :
  convert (NdArray array_3x2) SchemaNone
  = Ok (toDF
          (withPlan
             (LocalRelation
                (Some (mkTable ["_1"; "_2"]
                         [[CInt 1; CInt 3; CInt 5];
                          [CInt 2; CInt 4; CInt 6]]))
                None))
          ["_1"; "_2"]).
Proof.
  refine (proj2 (@createDataFrame_array_default_names spec_imports
                   array_3x2 SchemaNone _ (or_intror eq_refl)) _).
  - intros names. discriminate.
  - cbn. lia.
Defined.

(** C5 as stated fails: the single column of a 2-D array of shape (3, 1)
    is named [value], not [_1]. *)
Lemma createDataFrame_array_3x1 :
  ndim array_3x1 = 2
  /\ convert (NdArray array_3x1) SchemaNone
     = Ok (toDF
             (withPlan
                (LocalRelation
                   (Some (mkTable ["value"] [[CInt 1; CInt 2; CInt 3]]))
                   None))
             ["value"]).
Proof. split; reflexivity. Qed.

(** C6 at the scalars 1, 2, 3. *)
Lemma scalars_wrapped_as_rows_123 :
  convert (Iterable true scalars_123) SchemaNone
  = convert (Iterable true [PyList [PyInt 1]; PyList [PyInt 2];
                            PyList [PyInt 3]]) SchemaNone.
Proof.
  refine (proj1 (proj2 (@scalars_wrapped_as_rows spec_imports true
                          scalars_123 SchemaNone _))).
  repeat constructor.
Defined.

(** C6 as stated fails: the column of the scalars 1, 2, 3, converted with
    no schema, is named [_1], not [value]. *)
Lemma scalars_column_not_value :
  convert (Iterable true scalars_123) SchemaNone
  = Ok (withPlan
          (LocalRelation
             (Some (mkTable ["_1"] [[CInt 1; CInt 2; CInt 3]])) None)).
Proof. reflexivity. Qed.

(** C7 at an array of shape (3, 2) and one name. *)
Lemma createDataFrame_array_3x2_one_name :
  convert (NdArray array_3x2) (SchemaNames ["a"])
  = Raise (ValueError
             "Length mismatch: Expected axis has 2 elements, new values have 1 elements").
Proof.
  refine (@createDataFrame_array_names_mismatch spec_imports
            array_3x2 ["a"] _ (or_intror eq_refl) _); cbn; lia.
Defined.

(** C7 as stated fails: an array of shape (0, 2) and one name.  The error
    is the one of an empty input, not a length mismatch. *)
Lemma createDataFrame_array_0x2_one_name :
  ndim array_0x2 = 2
  /\ shape1 array_0x2 = 2
  /\ convert (NdArray array_0x2) (SchemaNames ["a"])
     = Raise (ValueError "can not infer schema from empty dataset").
Proof. repeat split. Qed.

(** C8 at an array of shape (2, 2, 2). *)
Lemma createDataFrame_array_2x2x2 :
  convert (NdArray array_2x2x2) SchemaNone
  = Raise (ValueError "NumPy array input should be of 1 or 2 dimensions.").
Proof.
  refine (@createDataFrame_array_dimensions spec_imports
            array_2x2x2 SchemaNone _ _ _); cbn; lia.
Defined.

(** C8 as stated fails: an array of shape (0, 2, 2) with a struct schema
    is an empty input, and the conversion succeeds. *)
Lemma createDataFrame_array_0x2x2 :
  ndim array_0x2x2 = 3
  /\ convert (NdArray array_0x2x2) (SchemaType (StructType alice_schema))
     = Ok (withPlan
             (LocalRelation None (Some (JsonOf (StructType alice_schema))))).
Proof. split; reflexivity. Qed.

(** ** More on [createDataFrame] *)

Section MoreSessionFacts.

Context `{Imported}.

Lemma df_table_relation_of (tbl : Table) (cols : option (list string))
  (L : Locals) :
  df_table (relation_of tbl cols L) = Some tbl.
Proof.
  unfold relation_of.
  destruct (_schema L), (_schema_str L), cols as [[|c cs]|]; reflexivity.
Qed.

Lemma df_schema_relation_of (tbl : Table) (cols : option (list string))
  (L : Locals) :
  df_schema (relation_of tbl cols L)
  = match _schema L, _schema_str L with
    | Some t, _ => Some (JsonOf t)
    | None, Some ddl => Some (Ddl ddl)
    | None, None => None
    end.
Proof.
  unfold relation_of.
  destruct (_schema L), (_schema_str L), cols as [[|c cs]|]; reflexivity.
Qed.

(** What a successful call went through. *)
Lemma createDataFrame_Ok (data : Data) (schema : Schema) (df : DataFrame) :
  createDataFrame data schema = Ok df ->
  (is_empty_sized data = Ok true
   /\ empty_relation (schema_locals schema) = Ok df)
  \/ (exists tbl cols,
        is_empty_sized data = Ok false
        /\ build_table data schema (schema_locals schema) = Ok (tbl, cols)
        /\ finish tbl cols (schema_locals schema) = Ok df).
Proof.
  unfold createDataFrame. intros Hdf.
  destruct data; try discriminate Hdf;
    (destruct (is_empty_sized _) as [[|]|e] eqn:Hlen; [ | |discriminate Hdf];
     cbn [bind] in Hdf; [now left|right];
     destruct (build_table _ schema (schema_locals schema))
       as [[tbl cols]|e] eqn:Hbuild; [|discriminate Hdf];
     exists tbl, cols; auto).
Qed.

Lemma finish_Ok (tbl : Table) (cols : option (list string)) (L : Locals)
  (df : DataFrame) :
  finish tbl cols L = Ok df ->
  df = relation_of tbl cols L
  /\ (forall n, _num_cols L = Some n -> num_columns tbl = n).
Proof.
  unfold finish. destruct (_num_cols L) as [n|].
  - destruct (Nat.eqb_spec n (num_columns tbl)) as [E|E]; cbn;
      [|discriminate].
    intros [= <-]. split; [reflexivity|]. now intros n' [= <-].
  - intros [= <-]. split; [reflexivity|]. discriminate.
Qed.

(** X1: whenever [createDataFrame] returns for a caller that declared a
    number of columns [n], the table of the result, if it has one, has
    exactly [n] columns; it has none only for an empty sized input. *)
Theorem createDataFrame_declared_columns (data : Data) (schema : Schema)
  (df : DataFrame) (n : nat) :
  createDataFrame data schema = Ok df ->
  declares schema n ->
  match df_table df with
  | Some tbl => num_columns tbl = n
  | None => is_empty_sized data = Ok true
  end.
Proof.
  intros Hdf Hn.
  destruct (createDataFrame_Ok _ _ Hdf)
    as [[Hlen Hempty] | [tbl [cols [Hlen [Hbuild Hfinish]]]]].
  - unfold empty_relation in Hempty.
    destruct (_schema (schema_locals schema));
      [|destruct (_schema_str (schema_locals schema))];
      try discriminate Hempty; injection Hempty as <-; exact Hlen.
  - destruct (finish_Ok _ _ _ Hfinish) as [-> Hcount].
    rewrite df_table_relation_of. apply Hcount.
    now apply declares_num_cols.
Qed.

(** X2: whenever [createDataFrame] returns, the relation carries the
    caller's type schema when it is an atomic or a struct type, the
    caller's schema string when a string was given, and no schema
    otherwise, whatever the kind of input. *)
Theorem createDataFrame_schema_carried (data : Data) (schema : Schema)
  (df : DataFrame) :
  createDataFrame data schema = Ok df ->
  df_schema df
  = match schema with
    | SchemaType t =>
        if is_AtomicType t || is_StructType t then Some (JsonOf t) else None
    | SchemaStr ddl => Some (Ddl ddl)
    | _ => None
    end.
Proof.
  intros Hdf.
  destruct (createDataFrame_Ok _ _ Hdf)
    as [[Hlen Hempty] | [tbl [cols [Hlen [Hbuild Hfinish]]]]].
  - unfold empty_relation in Hempty.
    destruct schema as [ | t | ddl | names]; cbn in Hempty;
      try discriminate Hempty.
    + destruct (is_AtomicType t || is_StructType t); cbn in Hempty;
        [|discriminate Hempty].
      now injection Hempty as <-.
    + now injection Hempty as <-.
  - destruct (finish_Ok _ _ _ Hfinish) as [-> _].
    rewrite df_schema_relation_of.
    destruct schema as [ | t | ddl | names]; try reflexivity.
    cbn. now destruct (is_AtomicType t || is_StructType t).
Qed.

Lemma build_table_names (data : Data) (names : list string) (tbl : Table)
  (cols : option (list string)) :
  build_table data (SchemaNames names) (schema_locals (SchemaNames names))
  = Ok (tbl, cols) ->
  cols = Some names.
Proof.
  destruct data as [ | | df | a | sized items]; cbn [build_table];
    try discriminate.
  - unfold from_pandas. cbn [schema_locals _cols].
    destruct (mapM _ (frame_columns df)) as [ats|e]; [|discriminate].
    cbn [bind].
    destruct (_create_batch _) as [t|e]; [|discriminate].
    cbn. now intros [= _ <-].
  - unfold from_ndarray. cbn [schema_locals _cols].
    repeat match goal with
           | |- context [if ?b then _ else _] => destruct b
           end; try discriminate;
      (destruct (Table_from_arrays _ names) as [t|e]; [|discriminate];
       cbn; now intros [= _ <-]).
  - unfold from_rows. cbn [schema_locals _cols].
    destruct (normalize_rows items) as [d|e]; [|discriminate]. cbn [bind].
    destruct (_inferSchemaFromList d (Some names)) as [s|e]; [|discriminate].
    cbn [bind].
    destruct (resolve_schema s _) as [u|e]; [|discriminate]. cbn [bind].
    destruct (LocalDataToArrowConversion_convert d u) as [t|e];
      [|discriminate].
    cbn. now intros [= _ <-].
Qed.

(** X3: whenever [createDataFrame] returns for a non-empty list of column
    names, the result is a table of as many columns as there are names,
    renamed to exactly these names, whatever the kind of input. *)
Theorem createDataFrame_renamed (data : Data) (names : list string)
  (df : DataFrame) :
  createDataFrame data (SchemaNames names) = Ok df ->
  names <> [] ->
  exists tbl,
    df = toDF (withPlan (LocalRelation (Some tbl) None)) names
    /\ num_columns tbl = length names.
Proof.
  intros Hdf Hnames.
  destruct (createDataFrame_Ok _ _ Hdf)
    as [[_ Hempty] | [tbl [cols [_ [Hbuild Hfinish]]]]];
    [discriminate Hempty|].
  apply build_table_names in Hbuild. subst cols.
  destruct (finish_Ok _ _ _ Hfinish) as [-> Hcount].
  exists tbl. split; [|now apply Hcount].
  destruct names; [contradiction|reflexivity].
Qed.

(** X4: an iterable that is not [Sized] (a generator) is converted as the
    list of its items is, except when it has no item: it is then not seen
    as empty and, whatever the schema, also one under which an empty list
    is converted, the call ends in the [IndexError] of [_data[0]]. *)
Theorem createDataFrame_generator (items : list PyVal) (schema : Schema) :
  (items <> [] ->
   createDataFrame (Iterable false items) schema
   = createDataFrame (Iterable true items) schema)
  /\ (exists msg,
        createDataFrame (Iterable false []) schema = Raise (IndexError msg)).
Proof.
  split.
  - intros Hitems. now rewrite !createDataFrame_rows.
  - eexists. reflexivity.
Qed.



(** X6: a [pd.DataFrame] of at least one row with a schema that is a
    single type, not a struct, is refused with the [ValueError] "Single
    data type ... is not supported with Arrow"; no column is read. *)
Theorem createDataFrame_pandas_single_type (df : PandasFrame)
  (t : DataType) :
  frame_len df <> 0 ->
  is_StructType t = false ->
  createDataFrame (PandasDataFrame df) (SchemaType t)
  = Raise (ValueError ("Single data type " ++ DataType_str t
                       ++ " is not supported with Arrow")).
Proof.
  intros Hlen Ht. unfold createDataFrame, is_empty_sized.
  apply Nat.eqb_neq in Hlen. rewrite Hlen. cbn [bind build_table].
  unfold from_pandas. now destruct t.
Qed.

(** X7: for an empty sized input the outcome depends on the schema
    argument alone, not on what the input is, and a list of column names
    does not stand for a schema: the call fails as with no schema. *)
Theorem createDataFrame_empty_any_input (data data' : Data)
  (schema : Schema) (names : list string) :
  is_empty_sized data = Ok true ->
  is_empty_sized data' = Ok true ->
  createDataFrame data schema = createDataFrame data' schema
  /\ createDataFrame data (SchemaNames names)
     = Raise (ValueError "can not infer schema from empty dataset").
Proof.
  intros Hdata Hdata'.
  assert (Hempty : forall d s, is_empty_sized d = Ok true ->
            createDataFrame d s = empty_relation (schema_locals s)).
  { intros d s Hd. unfold createDataFrame.
    destruct d; try discriminate Hd; rewrite Hd; reflexivity. }
  split.
  - now rewrite !Hempty.
  - now rewrite Hempty.
Qed.


Lemma bind_assoc (A B C : Type) (r : Res A) (f : A -> Res B)
  (g : B -> Res C) :
  bind (bind r f) g = bind r (fun a => bind (f a) g).
Proof. now destruct r. Qed.

Lemma reduce_merge_type_snoc (rows : list PyVal) (row : PyVal)
  (names : option (list string)) :
  forall acc,
    reduce_merge_type acc (rows ++ [row]) names
    = (a <- reduce_merge_type acc rows names ;;
       t <- _infer_schema row names ;;
       _merge_type a t).
Proof.
  induction rows as [|r rows IH]; intros acc; cbn.
  - destruct (_infer_schema row names) as [t|e]; [|reflexivity]. cbn.
    now destruct (_merge_type acc t).
  - destruct (_infer_schema r names) as [t|e]; [|reflexivity]. cbn.
    destruct (_merge_type acc t) as [acc'|e]; [|reflexivity]. cbn.
    apply IH.
Qed.

(** X8: inference is incremental.  The schema of a non-empty list of rows
    followed by one more row is the merge of the schema of the list with
    the type inferred for that row, and fails as soon as one of the three
    steps does, in this order. *)
Theorem inferSchemaFromList_one_more_row (rows : list PyVal) (row : PyVal)
  (names : option (list string)) :
  rows <> [] ->
  _inferSchemaFromList (rows ++ [row]) names
  = (schema <- _inferSchemaFromList rows names ;;
     t <- _infer_schema row names ;;
     _merge_type schema t).
Proof.
  intros Hrows. destruct rows as [|r rows]; [contradiction|].
  cbn [app _inferSchemaFromList].
  destruct (_infer_schema r names) as [t|e]; [|reflexivity].
  cbn [bind]. apply reduce_merge_type_snoc.
Qed.

Lemma from_ndarray_columns (a : ndarray) (L : Locals) (tbl : Table)
  (cols : option (list string)) :
  from_ndarray a L = Ok (tbl, cols) ->
  (ndim a = 1 \/ ndim a = 2)
  /\ columns tbl = array_arrays a
  /\ cols = Some (column_names tbl)
  /\ length (column_names tbl) = array_width a.
Proof.
  unfold from_ndarray, array_arrays, array_width.
  destruct (Nat.eqb_spec (ndim a) 1) as [H1|H1];
    destruct (Nat.eqb_spec (ndim a) 2) as [H2|H2]; cbn [negb andb];
    try discriminate.
  - lia.
  - set (c := match _cols L with Some c => c | None => _ end).
    destruct (Nat.eqb_spec 1 (length c)) as [E|E]; cbn [negb];
      [|discriminate].
    unfold Table_from_arrays. cbn [length]. rewrite <- E. cbn.
    intros [= <- <-]. cbn. auto.
  - set (c := match _cols L with Some c => c | None => _ end).
    destruct (Nat.eqb_spec (shape1 a) (length c)) as [E|E]; cbn [negb];
      [|discriminate].
    unfold Table_from_arrays.
    rewrite length_map, length_seq, <- E, Nat.eqb_refl. cbn.
    intros [= <- <-]. cbn. auto.
Qed.


Lemma nth_map_seq (A : Type) (f : nat -> A) (n i : nat) (d : A) :
  i < n -> nth i (map f (seq 0 n)) d = f i.
Proof.
  intros Hi.
  rewrite (nth_indep _ d (f 0)) by now rewrite length_map, length_seq.
  rewrite map_nth, seq_nth by exact Hi. reflexivity.
Qed.

Lemma table_row_array (a : ndarray) (r : nat) :
  r < shape0 a ->
  length (elements a) = shape0 a * shape1 a ->
  map (fun column => nth r column CNull)
      (map (array_column a) (seq 0 (shape1 a)))
  = array_row a r.
Proof.
  intros Hr Hlen. unfold array_row.
  assert (Hfit : r * shape1 a + shape1 a <= length (elements a))
    by (rewrite Hlen; nia).
  apply (nth_ext _ _ CNull CNull).
  - rewrite !length_map, length_seq, length_firstn, length_skipn. lia.
  - rewrite !length_map, length_seq. intros i Hi.
    rewrite map_map, nth_map_seq by exact Hi.
    unfold array_column. rewrite nth_map_seq by exact Hr.
    rewrite nth_firstn, nth_skipn.
    apply Nat.ltb_lt in Hi. now rewrite Hi.
Qed.

(** X9: whenever [createDataFrame] returns for an array whose elements
    fill its shape, whatever the schema, the table of the result holds the
    array: the rows of the table are the rows of a 2-D array, in order,
    and the single column of the table is a 1-D array; there is no table
    only when the array has no row. *)
Theorem createDataFrame_array_rows (a : ndarray) (schema : Schema)
  (df : DataFrame) :
  createDataFrame (NdArray a) schema = Ok df ->
  length (elements a) = array_size a ->
  match df_table df with
  | Some tbl =>
      (ndim a = 1 /\ columns tbl = [elements a])
      \/ (ndim a = 2
          /\ num_columns tbl = shape1 a
          /\ forall r, r < shape0 a -> table_row tbl r = array_row a r)
  | None => shape0 a = 0
  end.
Proof.
  intros Hdf Hlen.
  destruct (createDataFrame_Ok _ _ Hdf)
    as [[Hempty Hrel] | [tbl [cols [_ [Hbuild Hfinish]]]]].
  - assert (Htable : df_table df = None).
    { unfold empty_relation in Hrel.
      destruct (_schema (schema_locals schema));
        [|destruct (_schema_str (schema_locals schema))];
        try discriminate Hrel; now injection Hrel as <-. }
    rewrite Htable. unfold is_empty_sized, shape0 in *.
    destruct (shape a) as [|n rest]; [discriminate Hempty|].
    injection Hempty as Hn. now apply Nat.eqb_eq in Hn.
  - destruct (finish_Ok _ _ _ Hfinish) as [-> _].
    rewrite df_table_relation_of.
    cbn [build_table] in Hbuild.
    destruct (from_ndarray_columns _ _ Hbuild) as [Hd [Hcolumns _]].
    unfold array_arrays in Hcolumns.
    destruct Hd as [Hd | Hd]; rewrite Hd in Hcolumns; cbn in Hcolumns.
    + left. auto.
    + right. split; [exact Hd|]. split.
      * unfold num_columns. now rewrite Hcolumns, length_map, length_seq.
      * intros r Hr. unfold table_row. rewrite Hcolumns.
        apply table_row_array; [exact Hr|].
        rewrite Hlen. unfold array_size, shape0, shape1, ndim in *.
        destruct (shape a) as [|n [|m [|k rest]]]; try discriminate Hd.
        cbn. lia.
Qed.


End MoreSessionFacts.

(** ** More on the rows handed to inference *)

Lemma leb_refl (s : string) : String.leb s s = true.
Proof. now destruct (String.leb_total s s). Qed.

Lemma insert_item_head (kv : string * PyVal) (l : list (string * PyVal)) :
  HdRel key_le kv l -> insert_item kv l = kv :: l.
Proof.
  intros [|kv' l' Hle]; [reflexivity|].
  cbn. unfold key_le in Hle. now rewrite Hle.
Qed.

Lemma sorted_items_fixed (l : list (string * PyVal)) :
  Sorted key_le l -> sorted_items l = l.
Proof.
  induction 1 as [|kv l Hl IH Hhd]; [reflexivity|].
  change (sorted_items (kv :: l)) with (insert_item kv (sorted_items l)).
  rewrite IH. now apply insert_item_head.
Qed.

Lemma lookup_insert_item (k : string) (kv : string * PyVal)
  (l : list (string * PyVal)) :
  lookup_item k (insert_item kv l) = lookup_item k (kv :: l).
Proof.
  induction l as [|[k' v'] l IH]; [reflexivity|].
  cbn [insert_item fst].
  destruct (String.leb (fst kv) k') eqn:Hle; [reflexivity|].
  destruct kv as [k0 v0]. cbn [fst] in *.
  assert (Hne : k0 <> k') by (intros ->; now rewrite leb_refl in Hle).
  cbn [lookup_item] in *. rewrite IH.
  destruct (String.eqb_spec k' k) as [-> | Hk']; [|reflexivity].
  apply String.eqb_neq in Hne. now rewrite Hne.
Qed.

(** X10: sorting the items of a dict changes the value of no key, present
    or not: [dict(sorted(d.items()))[k]] is [d[k]]. *)
Theorem sorted_items_lookup (k : string) (items : list (string * PyVal)) :
  lookup_item k (sorted_items items) = lookup_item k items.
Proof.
  induction items as [|[k' v'] items IH]; [reflexivity|].
  change (sorted_items ((k', v') :: items))
    with (insert_item (k', v') (sorted_items items)).
  rewrite lookup_insert_item. cbn [lookup_item]. now rewrite IH.
Qed.

Lemma mapM_sort_dict_Ok (items d : list PyVal) :
  mapM sort_dict items = Ok d ->
  exists dicts,
    items = map PyDict dicts
    /\ d = map (fun x => PyDict (sorted_items x)) dicts.
Proof.
  revert d. induction items as [|v items IH]; intros d; cbn [mapM].
  - intros [= <-]. now exists [].
  - destruct v; cbn [sort_dict];
      try (destruct (has_attribute_items _); discriminate).
    cbn [bind].
    destruct (mapM sort_dict items) as [d'|e]; [|discriminate].
    cbn. intros [= <-].
    destruct (IH d' eq_refl) as [dicts [-> ->]].
    now exists (items0 :: dicts).
Qed.

Lemma normalize_dicts (dicts : list (list (string * PyVal))) :
  dicts <> [] ->
  normalize_rows (map PyDict dicts)
  = Ok (map (fun x => PyDict (sorted_items x)) dicts).
Proof.
  intros Hne. destruct dicts as [|x dicts]; [contradiction|].
  rewrite <- mapM_sort_dict. reflexivity.
Qed.

(** X11: the rows handed to inference are as many as the items of the
    input, and are left as they are when they are normalized again:
    sorted dicts stay sorted, wrapped scalars are not wrapped twice. *)
Theorem normalize_rows_idempotent (items d : list PyVal) :
  normalize_rows items = Ok d ->
  length d = length items /\ normalize_rows d = Ok d.
Proof.
  unfold normalize_rows at 1.
  destruct items as [|d0 items]; [discriminate|].
  destruct (is_dict d0) eqn:Hd0.
  - intros Hd. destruct (mapM_sort_dict_Ok _ Hd) as [dicts [Hitems ->]].
    destruct dicts as [|x dicts]; [discriminate Hitems|].
    split.
    + now rewrite Hitems, !length_map.
    + rewrite <- (map_map sorted_items PyDict).
      rewrite normalize_dicts by discriminate.
      rewrite !map_map. f_equal. apply map_ext. intros y.
      now rewrite (sorted_items_fixed (sorted_items_sorted y)).
  - destruct (negb (is_row_like d0) && negb (has___dict__ d0)) eqn:Hs;
      intros [= <-].
    + split; [cbn; now rewrite length_map|reflexivity].
    + split; [reflexivity|].
      unfold normalize_rows. now rewrite Hd0, Hs.
Qed.

(** ** More on the names of the columns of an array *)

Lemma to_uint_nonnil (n : nat) : Nat.to_uint n <> Decimal.Nil.
Proof.
  rewrite <- (DecimalNat.Unsigned.of_to n) at 1.
  rewrite DecimalNat.Unsigned.to_of. apply DecimalFacts.unorm_nonnil.
Qed.

Lemma str_nat_inj (n m : nat) : str_nat n = str_nat m -> n = m.
Proof.
  unfold str_nat. intros Heq.
  apply DecimalNat.Unsigned.to_uint_inj.
  assert (Hn := NilZero.usu _ (to_uint_nonnil n)).
  assert (Hm := NilZero.usu _ (to_uint_nonnil m)).
  rewrite Heq in Hn. congruence.
Qed.

(** X12: the names given to the columns of an array when the caller gave
    none are pairwise distinct, and none of [_1], [_2], ... is the name
    [value]. *)
Theorem default_array_cols_distinct (a : ndarray) :
  NoDup (default_array_cols a)
  /\ forall N, ~ In "value" (names_1_to N).
Proof.
  assert (Hnames : forall N, NoDup (names_1_to N)).
  { intros N. unfold names_1_to.
    apply Finite.Injective_map_NoDup; [|apply seq_NoDup].
    intros i j Hij. injection Hij as Hij. now apply str_nat_inj. }
  split.
  - unfold default_array_cols.
    destruct ((ndim a =? 1)%nat || (shape1 a =? 1)%nat).
    + repeat constructor. intros [].
    + apply Hnames.
  - intros N Hin. unfold names_1_to in Hin.
    apply in_map_iff in Hin. destruct Hin as [i [Hi _]]. discriminate Hi.
Qed.

(** ** Dicts *)

Section DictFacts.

Variables (K V : Type) (eqb : K -> K -> bool).
Hypothesis eqb_spec : forall x y, reflect (x = y) (eqb x y).

Lemma dict_get_set_same (k : K) (v : V) (d : list (K * V)) :
  dict_get eqb k (dict_set eqb k v d) = Some v.
Proof.
  induction d as [|[k' v'] d IH]; cbn.
  - now destruct (eqb_spec k k).
  - destruct (eqb_spec k' k) as [E|E]; cbn;
      destruct (eqb_spec k' k); congruence.
Qed.

Lemma dict_get_set_other (k k' : K) (v : V) (d : list (K * V)) :
  k <> k' -> dict_get eqb k' (dict_set eqb k v d) = dict_get eqb k' d.
Proof.
  intros Hne. induction d as [|[k0 v0] d IH]; cbn.
  - now destruct (eqb_spec k k').
  - destruct (eqb_spec k0 k) as [-> |E]; cbn.
    + now destruct (eqb_spec k k').
    + now rewrite IH.
Qed.

Lemma dict_get_del_same (k : K) (d : list (K * V)) :
  dict_get eqb k (dict_del eqb k d) = None.
Proof.
  induction d as [|[k' v'] d IH]; [reflexivity|].
  unfold dict_del in *. cbn.
  destruct (eqb_spec k' k) as [E|E]; cbn; [exact IH|].
  now destruct (eqb_spec k' k).
Qed.

Lemma dict_get_del_other (k k' : K) (d : list (K * V)) :
  k <> k' -> dict_get eqb k' (dict_del eqb k d) = dict_get eqb k' d.
Proof.
  intros Hne. induction d as [|[k0 v0] d IH]; [reflexivity|].
  unfold dict_del in *. cbn.
  destruct (eqb_spec k0 k) as [-> |E]; cbn.
  - rewrite IH. now destruct (eqb_spec k k').
  - now rewrite IH.
Qed.

End DictFacts.

Lemma option_key_eqb_spec (a b : option string) :
  reflect (a = b) (option_key_eqb a b).
Proof.
  destruct a as [x|], b as [y|]; cbn; try (constructor; congruence).
  destruct (String.eqb_spec x y); constructor; congruence.
Qed.

(** ** The builder *)

Section BuilderFacts.

Variable to_str : PyVal -> option string.
Variable Client : Type.
Variable SparkConnectClient : option string -> Outcome Client.

Notation remote_of b :=
  (dict_get option_key_eqb (Some "spark.remote") (_options b)).

Lemma config_map_other (m : list (string * PyVal)) :
  existsb (String.eqb "spark.remote") (map fst m) = false ->
  forall opts,
    dict_get option_key_eqb (Some "spark.remote")
      (fold_left
         (fun o kv =>
            dict_set option_key_eqb (Some (fst kv)) (to_str (snd kv)) o)
         m opts)
    = dict_get option_key_eqb (Some "spark.remote") opts.
Proof.
  induction m as [|[k v] m IH]; intros Hm opts; [reflexivity|].
  cbn [map fst existsb] in Hm.
  apply orb_false_elim in Hm. destruct Hm as [Hk Hm].
  cbn [fold_left fst snd]. rewrite (IH Hm).
  apply (@dict_get_set_other _ _ _ option_key_eqb_spec).
  apply String.eqb_neq in Hk. congruence.
Qed.

Lemma call_keeps_remote (c : BuilderCall) (b : Builder) :
  writes_remote c = false ->
  remote_of (Builder_call to_str b c) = remote_of b.
Proof.
  destruct c as [key value [m|] | master | name | location];
    cbn [writes_remote Builder_call Builder_config Builder_master
         Builder_appName Builder_remote _options];
    intros Hc; try discriminate Hc; try reflexivity.
  - now apply config_map_other.
  - apply (@dict_get_set_other _ _ _ option_key_eqb_spec).
    now destruct (option_key_eqb_spec key (Some "spark.remote")).
  - apply (@dict_get_set_other _ _ _ option_key_eqb_spec). discriminate.
Qed.

Lemma chain_keeps_remote (calls : list BuilderCall) :
  forallb (fun c => negb (writes_remote c)) calls = true ->
  forall b, remote_of (Builder_chain to_str calls b) = remote_of b.
Proof.
  induction calls as [|c calls IH]; intros Hcalls b; [reflexivity|].
  cbn [forallb] in Hcalls.
  apply andb_prop in Hcalls. destruct Hcalls as [Hc Hcalls].
  unfold Builder_chain in *. cbn [fold_left].
  rewrite (IH Hcalls). apply call_keeps_remote.
  now apply negb_true_iff in Hc.
Qed.

(** X13: [getOrCreate] connects to the location of the last [remote] of
    the chain: after [remote(location)] and any calls that do not write
    the option [spark.remote] ([master], [appName], [config] of other
    keys), whatever came before, the session is the one
    [SparkSession(to_str(location))] gives, with [sc://localhost] for a
    [remote()] without argument. *)
Theorem Builder_getOrCreate_last_remote (before after : list BuilderCall)
  (location : option string) (b : Builder) :
  forallb (fun c => negb (writes_remote c)) after = true ->
  Builder_getOrCreate SparkConnectClient
    (Builder_chain to_str (before ++ CallRemote location :: after) b)
  = SparkConnectClient
      (to_str (PyStr (match location with
                      | Some l => l
                      | None => "sc://localhost"
                      end))).
Proof.
  intros Hafter. unfold Builder_getOrCreate, Builder_chain.
  rewrite fold_left_app. cbn [fold_left].
  fold (Builder_chain to_str after
          (Builder_call to_str (fold_left (Builder_call to_str) before b)
             (CallRemote location))).
  rewrite (chain_keeps_remote _ Hafter).
  cbn [Builder_call Builder_remote Builder_config _options].
  now rewrite (@dict_get_set_same _ _ _ option_key_eqb_spec).
Qed.

(** X14: on a new builder, a chain of calls none of which writes the
    option [spark.remote] leaves [getOrCreate] without a location: it
    raises the [KeyError] of ["spark.remote"], and no client is made. *)
Theorem Builder_getOrCreate_no_remote (calls : list BuilderCall) :
  forallb (fun c => negb (writes_remote c)) calls = true ->
  Builder_getOrCreate SparkConnectClient
    (Builder_chain to_str calls new_Builder)
  = Raises (KeyError "spark.remote").
Proof.
  intros Hcalls. unfold Builder_getOrCreate.
  now rewrite (chain_keeps_remote _ Hcalls).
Qed.

(** X22: [config(map=m)] is the chain of the calls [config(k, v)] for the
    items of [m], in their order; the key and the value given beside the
    map are not used. *)
Theorem Builder_config_map (key : option string) (value : PyVal)
  (m : list (string * PyVal)) (b : Builder) :
  Builder_config to_str key value (Some m) b
  = Builder_chain to_str
      (map (fun kv => CallConfig (Some (fst kv)) (snd kv) None) m) b.
Proof.
  unfold Builder_config, Builder_chain. revert b.
  induction m as [|[k v] m IH]; intros [opts]; [reflexivity|].
  cbn [fold_left map fst snd _options Builder_call Builder_config].
  apply (IH (mkBuilder _)).
Qed.

End BuilderFacts.

(** ** [stop] and [__del__] *)

Section StopFacts.

Variable S : Type.
Variable client_close : Eff S unit.
Variable ActiveSession : Type.
Variable getActiveSession : Eff S (option ActiveSession).
Variable active_session_stop : ActiveSession -> Eff S unit.

Notation stop' := (stop client_close getActiveSession active_session_stop).

Lemma in_environ_del_other (k k' : string) (w : World S) :
  k <> k' ->
  in_environ k' (with_environ (dict_del String.eqb k (environ w)) w)
  = in_environ k' w.
Proof.
  intros Hne. unfold in_environ, dict_contains. cbn.
  now rewrite (@dict_get_del_other _ _ _ String.eqb_spec).
Qed.

(** The two [del] of lines 411-412. *)
Lemma del_both (w : World S) :
  (_ <~ del_environ "SPARK_LOCAL_REMOTE" ;; del_environ "SPARK_REMOTE") w
  = if in_environ "SPARK_LOCAL_REMOTE" w then
      let w1 := with_environ
                  (dict_del String.eqb "SPARK_LOCAL_REMOTE" (environ w)) w in
      if in_environ "SPARK_REMOTE" w
      then (Returns tt,
            with_environ (dict_del String.eqb "SPARK_REMOTE" (environ w1)) w1)
      else (Raises (KeyError "SPARK_REMOTE"), w1)
    else (Raises (KeyError "SPARK_LOCAL_REMOTE"), w).
Proof.
  unfold eff_bind, del_environ at 1.
  destruct (in_environ "SPARK_LOCAL_REMOTE" w); [|reflexivity].
  unfold del_environ.
  rewrite in_environ_del_other by discriminate. reflexivity.
Qed.

(** X15: whenever [stop] returns, [SPARK_LOCAL_REMOTE] is not in the
    environment, and when it was there once the client was closed,
    [SPARK_REMOTE] is not there either, whatever the client and the active
    session do. *)
Theorem stop_clears_environ (w w' : World S) :
  stop' w = (Returns tt, w') ->
  in_environ "SPARK_LOCAL_REMOTE" w' = false
  /\ (in_environ "SPARK_LOCAL_REMOTE" (snd (client_close w)) = true ->
      in_environ "SPARK_REMOTE" w' = false).
Proof.
  unfold stop, eff_bind at 1.
  destruct (client_close w) as [[[]|e] w1]; [|discriminate]. cbn [snd].
  destruct (in_environ "SPARK_LOCAL_REMOTE" w1) eqn:Hlocal.
  - unfold eff_bind at 1.
    destruct (getActiveSession w1) as [[active|e] w2]; [|discriminate].
    unfold eff_bind at 1.
    destruct (match active with
              | Some s => active_session_stop s
              | None => eff_ret tt
              end w2) as [[[]|e] w3]; [|discriminate].
    rewrite del_both.
    destruct (in_environ "SPARK_LOCAL_REMOTE" w3); [|discriminate].
    destruct (in_environ "SPARK_REMOTE" w3); [|discriminate].
    cbn zeta. intros [= <-].
    unfold in_environ, dict_contains. cbn [environ with_environ].
    split; [|intros _].
    + rewrite (@dict_get_del_other _ _ _ String.eqb_spec) by discriminate.
      now rewrite (@dict_get_del_same _ _ _ String.eqb_spec).
    + now rewrite (@dict_get_del_same _ _ _ String.eqb_spec).
  - intros [= <-]. split; [exact Hlocal|discriminate].
Qed.

(** X16: in local mode without [SPARK_REMOTE], [stop] does not return: once
    the client is closed and the active session, if any, is stopped, it
    raises the [KeyError] of ["SPARK_REMOTE"], and [SPARK_LOCAL_REMOTE]
    has already been removed from the environment. *)
Theorem stop_without_remote (w w1 w2 : World S) :
  client_close w = (Returns tt, w1) ->
  in_environ "SPARK_LOCAL_REMOTE" w1 = true ->
  (active_session <~ getActiveSession ;;
   match active_session with
   | Some s => active_session_stop s
   | None => eff_ret tt
   end) w1 = (Returns tt, w2) ->
  in_environ "SPARK_LOCAL_REMOTE" w2 = true ->
  in_environ "SPARK_REMOTE" w2 = false ->
  stop' w
  = (Raises (KeyError "SPARK_REMOTE"),
     with_environ (dict_del String.eqb "SPARK_LOCAL_REMOTE" (environ w2)) w2).
Proof.
  intros Hclose Hlocal Hactive Hlocal2 Hremote.
  unfold stop, eff_bind at 1. rewrite Hclose, Hlocal.
  unfold eff_bind at 1. unfold eff_bind at 1 in Hactive.
  destruct (getActiveSession w1) as [[active|e] w1']; [|discriminate].
  unfold eff_bind at 1. rewrite Hactive.
  rewrite del_both, Hlocal2, Hremote. reflexivity.
Qed.

(** X17: [__del__] lets nothing through but an exception of the closing
    that is not an [Exception] ([KeyboardInterrupt], [SystemExit]): it
    returns when the closing returns or raises an [Exception], and in
    every case leaves the world as the closing leaves it; [stop] lets
    every exception of the closing through and does nothing after it. *)
Theorem del_raises_no_Exception (w : World S) :
  (forall e, fst (__del__ client_close w) = Raises e ->
             is_Exception e = false /\ fst (client_close w) = Raises e)
  /\ (forall e, fst (client_close w) = Raises e -> is_Exception e = true ->
                fst (__del__ client_close w) = Returns tt)
  /\ snd (__del__ client_close w) = snd (client_close w)
  /\ (forall e w1, client_close w = (Raises e, w1) ->
                   stop' w = (Raises e, w1)).
Proof.
  assert (Hstop : forall e w1, client_close w = (Raises e, w1) ->
                               stop' w = (Raises e, w1)).
  { intros e w1 Hclose. unfold stop, eff_bind at 1. now rewrite Hclose. }
  unfold __del__.
  destruct (client_close w) as [[[]|e0] w1]; cbn [fst snd].
  - split; [discriminate|]. split; [discriminate|]. now split.
  - destruct (is_Exception e0) eqn:He0; cbn [fst snd].
    + split; [discriminate|]. split; [reflexivity|]. now split.
    + split; [now intros e [= <-]|].
      split; [intros e [= <-] He; congruence|]. now split.
Qed.

End StopFacts.

(** ** The local server *)

Section StartFacts.

Variable S : Type.
Variable live_session : World S -> bool.
Variable version_is_dev : bool.
Variable Conf : Type.
Variable SparkConf : bool -> World S -> Conf.
Variable conf_set : string -> PyVal -> Conf -> Conf.
Variable conf_contains : string -> Conf -> bool.
Variable ensure_initialized : Conf -> Eff S unit.
Variable Jar : Type.
Variable search_jar : Eff S (option Jar).
Variable addJarToCurrentClassLoader : Jar -> Eff S unit.
Variable new_PySparkSession : Conf -> Eff S unit.

Notation start' :=
  (_start_connect_server live_session version_is_dev SparkConf conf_set
     conf_contains ensure_initialized search_jar addJarToCurrentClassLoader
     new_PySparkSession).

Notation body' :=
  (start_body SparkConf conf_set conf_contains ensure_initialized
     search_jar addJarToCurrentClassLoader new_PySparkSession).

Lemma restore_remote_sets (r : string) (w : World S) :
  restore_remote (Some r) w
  = (Returns tt,
     with_environ (dict_set String.eqb "SPARK_REMOTE" r (environ w)) w).
Proof. reflexivity. Qed.

(** X18: a [SPARK_REMOTE] that is in the environment when
    [_start_connect_server] is called is there, with the same value, when
    the call ends, whether it returns or raises and whatever the steps of
    the start do to the environment. *)
Theorem start_connect_server_restores_remote (master : string)
  (opts : list (string * PyVal)) (w : World S) (r : string) :
  dict_get String.eqb "SPARK_REMOTE" (environ w) = Some r ->
  dict_get String.eqb "SPARK_REMOTE"
    (environ (snd (fst (start' master opts w))))
  = Some r.
Proof.
  intros Hr. unfold _start_connect_server.
  destruct (live_session w); [exact Hr|].
  rewrite Hr. unfold try_finally.
  destruct (body' _ _ (Some r) w) as [res w1].
  rewrite restore_remote_sets. cbn.
  apply (@dict_get_set_same _ _ _ String.eqb_spec).
Qed.


(** X20: when [SPARK_REMOTE] is in the environment and no session with a
    JVM exists, the context is initialized in an environment without
    [SPARK_REMOTE]; when that initialization raises, the call raises the
    same exception, nothing else of the start is run, and [SPARK_REMOTE]
    is put back. *)
Theorem start_connect_server_init_fails (master : string)
  (opts : list (string * PyVal)) (w w1 : World S) (r : string)
  (e : SessionExn) :
  live_session w = false ->
  dict_get String.eqb "SPARK_REMOTE" (environ w) = Some r ->
  let hidden :=
    with_environ (dict_del String.eqb "SPARK_REMOTE" (environ w)) w in
  let overwrite := overwrite_conf master opts w in
  ensure_initialized
    (create_conf SparkConf conf_set conf_contains overwrite false hidden)
    hidden
  = (Raises e, w1) ->
  in_environ "SPARK_REMOTE" hidden = false
  /\ start' master opts w
     = (Raises e,
        with_environ (dict_set String.eqb "SPARK_REMOTE" r (environ w1)) w1,
        overwrite).
Proof.
  intros Hlive Hr hidden overwrite Hinit. split.
  - unfold in_environ, dict_contains, hidden. cbn.
    now rewrite (@dict_get_del_same _ _ _ String.eqb_spec).
  - unfold _start_connect_server. rewrite Hlive, Hr.
    unfold try_finally, start_body, eff_bind at 1.
    unfold del_environ, in_environ, dict_contains. rewrite Hr.
    fold hidden. unfold eff_bind at 1. fold overwrite.
    rewrite Hinit. reflexivity.
Qed.

(** X21: the search of the jar never ends in an [ImportError]: one raised
    by the import, by the search or by adding the jar is passed over, and
    any other exception goes through. *)
Theorem add_connect_jar_no_ImportError (w : World S) :
  (forall msg,
      fst (add_connect_jar search_jar addJarToCurrentClassLoader w)
      <> Raises (ImportError msg))
  /\ (forall msg w1,
        search_jar w = (Raises (ImportError msg), w1) ->
        add_connect_jar search_jar addJarToCurrentClassLoader w
        = (Returns tt, w1))
  /\ (forall e w1,
        search_jar w = (Raises e, w1) ->
        (forall msg, e <> ImportError msg) ->
        add_connect_jar search_jar addJarToCurrentClassLoader w
        = (Raises e, w1)).
Proof.
  unfold add_connect_jar. repeat split.
  - intros msg.
    destruct (eff_bind _ _ w) as [[[]|[]] w1]; cbn; discriminate.
  - intros msg w1 Hsearch. unfold eff_bind. now rewrite Hsearch.
  - intros e w1 Hsearch He. unfold eff_bind. rewrite Hsearch.
    destruct e; try reflexivity. now elim (He msg).
Qed.

Lemma fold_set_contains (k : string) (l : list (string * PyVal)) :
  (forall k' v c, conf_contains k c = true ->
                  conf_contains k (conf_set k' v c) = true) ->
  forall c, conf_contains k c = true ->
            conf_contains k
              (fold_left (fun c kv => conf_set (fst kv) (snd kv) c) l c)
            = true.
Proof.
  intros Hkeep. induction l as [|[k' v] l IH]; intros c Hc; [exact Hc|].
  cbn [fold_left fst snd]. apply IH. now apply Hkeep.
Qed.

Lemma fold_set_written (k : string) (l : list (string * PyVal)) :
  (forall v c, conf_contains k (conf_set k v c) = true) ->
  (forall k' v c, conf_contains k c = true ->
                  conf_contains k (conf_set k' v c) = true) ->
  dict_contains String.eqb k l = true ->
  forall c, conf_contains k
              (fold_left (fun c kv => conf_set (fst kv) (snd kv) c) l c)
            = true.
Proof.
  intros Hset Hkeep. unfold dict_contains.
  induction l as [|[k' v] l IH]; intros Hk c; [discriminate Hk|].
  cbn [fold_left fst snd]. cbn [dict_get] in Hk.
  destruct (String.eqb_spec k' k) as [-> | Hne].
  - apply fold_set_contains; [exact Hkeep|apply Hset].
  - now apply IH.
Qed.

(** X23: for a configuration whose [set] makes [contains] true of the key
    it sets and of no key false, the configuration [create_conf] returns
    always contains [spark.plugins], and when the options written over it
    have the key [spark.plugins], the default plugin is not written: the
    configuration is the loaded one with these options set, in their
    order. *)
Theorem create_conf_plugins (overwrite : list (string * PyVal))
  (loadDefaults : bool) (w : World S) :
  (forall k v c, conf_contains k (conf_set k v c) = true) ->
  (forall k k' v c, conf_contains k c = true ->
                    conf_contains k (conf_set k' v c) = true) ->
  conf_contains "spark.plugins"
    (create_conf SparkConf conf_set conf_contains overwrite loadDefaults w)
  = true
  /\ (dict_contains String.eqb "spark.plugins" overwrite = true ->
      create_conf SparkConf conf_set conf_contains overwrite loadDefaults w
      = fold_left (fun c kv => conf_set (fst kv) (snd kv) c) overwrite
          (SparkConf loadDefaults w)).
Proof.
  intros Hset Hkeep. unfold create_conf, default_conf.
  cbn [fold_left fst snd].
  set (conf := fold_left _ overwrite _). split.
  - destruct (conf_contains "spark.plugins" conf) eqn:Hc; [exact Hc|].
    apply Hset.
  - intros Hov. unfold conf.
    now rewrite (@fold_set_written "spark.plugins" overwrite
                   (Hset "spark.plugins") (Hkeep "spark.plugins") Hov).
Qed.

End StartFacts.

(** ** More statements at concrete inputs *)

(** X1 at an array of shape (3, 2) and two names. *)
Lemma createDataFrame_declared_columns_3x2 :
  num_columns (mkTable ["a"; "b"] (array_arrays array_3x2)) = 2.
Proof.
  exact (@createDataFrame_declared_columns spec_imports
           (NdArray array_3x2) (SchemaNames ["a"; "b"]) _ 2
           eq_refl (declares_names ["a"; "b"])).
Defined.

(** X2 at the row of Alice and its schema. *)
Lemma createDataFrame_schema_carried_alice :
  df_schema
    (withPlan
       (LocalRelation
          (Some (mkTable ["name"; "age"; "score"]
                   [[CStr "Alice"]; [CNull]; [CFloat 4635336953345500774]]))
          (Some (JsonOf (StructType alice_schema)))))
  = Some (JsonOf (StructType alice_schema)).
Proof.
  exact (@createDataFrame_schema_carried spec_imports
           (Iterable true alice) (SchemaType (StructType alice_schema)) _
           eq_refl).
Defined.

(** X3 at an array of shape (3, 2) and two names. *)
Lemma createDataFrame_renamed_3x2 :
  exists tbl,
    toDF (withPlan
            (LocalRelation
               (Some (mkTable ["a"; "b"] (array_arrays array_3x2))) None))
         ["a"; "b"]
    = toDF (withPlan (LocalRelation (Some tbl) None)) ["a"; "b"]
    /\ num_columns tbl = 2.
Proof.
  refine (@createDataFrame_renamed spec_imports
            (NdArray array_3x2) ["a"; "b"] _ eq_refl _).
  discriminate.
Defined.

(** X4 at the scalars 1, 2, 3. *)
Lemma createDataFrame_generator_123 :
  convert (Iterable false scalars_123) SchemaNone
  = convert (Iterable true scalars_123) SchemaNone.
Proof.
  refine (proj1 (@createDataFrame_generator spec_imports
                   scalars_123 SchemaNone) _).
  discriminate.
Defined.


(** X6 at a frame of one column and the schema of an integer. *)
Lemma createDataFrame_pandas_integer :
  convert (PandasDataFrame frame_one_column) (SchemaType (IntegerType 32))
  = Raise (ValueError
             "Single data type IntegerType is not supported with Arrow").
Proof.
  refine (@createDataFrame_pandas_single_type spec_imports
            frame_one_column (IntegerType 32) _ eq_refl).
  discriminate.
Defined.

(** X7 at the empty list and an empty array. *)
Lemma createDataFrame_empty_list_array :
  convert (Iterable true []) (SchemaStr "a int")
  = convert (NdArray array_0x2) (SchemaStr "a int")
  /\ convert (Iterable true []) (SchemaNames ["a"])
     = Raise (ValueError "can not infer schema from empty dataset").
Proof.
  exact (@createDataFrame_empty_any_input spec_imports
           (Iterable true []) (NdArray array_0x2) (SchemaStr "a int") ["a"]
           eq_refl eq_refl).
Defined.

(** X8 at the rows (1,) and (300,). *)
Lemma inferSchemaFromList_1_then_300 :
  @_inferSchemaFromList spec_imports (one_row_1 ++ [PyTuple [PyInt 300]])
    None
  = Ok (StructType [mkField "_1" (IntegerType 16) false]).
Proof.
  refine (eq_trans
            (@inferSchemaFromList_one_more_row spec_imports one_row_1
               (PyTuple [PyInt 300]) None _)
            eq_refl).
  discriminate.
Defined.

(** X9 at an array of shape (3, 2). *)
Lemma createDataFrame_array_rows_3x2 :
  match df_table
          (toDF (withPlan
                   (LocalRelation
                      (Some (mkTable ["_1"; "_2"] (array_arrays array_3x2)))
                      None))
                ["_1"; "_2"]) with
  | Some tbl =>
      (ndim array_3x2 = 1 /\ columns tbl = [elements array_3x2])
      \/ (ndim array_3x2 = 2
          /\ num_columns tbl = shape1 array_3x2
          /\ forall r, r < shape0 array_3x2 ->
                       table_row tbl r = array_row array_3x2 r)
  | None => shape0 array_3x2 = 0
  end.
Proof.
  exact (@createDataFrame_array_rows spec_imports array_3x2 SchemaNone _
           eq_refl eq_refl).
Defined.

(** X11 at the rows [{"b": 1, "a": 2}], [{"a": 3, "b": 4}]. *)
Lemma normalize_rows_idempotent_ba :
  length [PyDict [("a", PyInt 2); ("b", PyInt 1)];
          PyDict [("a", PyInt 3); ("b", PyInt 4)]]
  = length dicts_ba
  /\ normalize_rows [PyDict [("a", PyInt 2); ("b", PyInt 1)];
                     PyDict [("a", PyInt 3); ("b", PyInt 4)]]
     = Ok [PyDict [("a", PyInt 2); ("b", PyInt 1)];
           PyDict [("a", PyInt 3); ("b", PyInt 4)]].
Proof.
  exact (@normalize_rows_idempotent dicts_ba _ eq_refl).
Defined.

(** X13 at [remote("sc://host").appName("app").master("local")]. *)
Lemma Builder_getOrCreate_remote_appName :
  Builder_getOrCreate client_of
    (Builder_chain str_of
       ([CallAppName "first"]
          ++ CallRemote (Some "sc://host")
          :: [CallAppName "app"; CallMaster "local"])
       new_Builder)
  = Returns (Some "sc://host").
Proof.
  exact (@Builder_getOrCreate_last_remote str_of _ client_of
           [CallAppName "first"] [CallAppName "app"; CallMaster "local"]
           (Some "sc://host") new_Builder eq_refl).
Defined.

(** X14 at [appName("app").master("local")]. *)
Lemma Builder_getOrCreate_appName_only :
  Builder_getOrCreate client_of
    (Builder_chain str_of [CallAppName "app"; CallMaster "local"]
       new_Builder)
  = Raises (KeyError "spark.remote").
Proof.
  exact (@Builder_getOrCreate_no_remote str_of _ client_of
           [CallAppName "app"; CallMaster "local"] eq_refl).
Defined.

(** X15 at a local session with its two variables. *)
Lemma stop_clears_environ_local :
  in_environ "SPARK_LOCAL_REMOTE" (mkWorld [] tt) = false
  /\ (in_environ "SPARK_LOCAL_REMOTE" (snd (quiet local_world)) = true ->
      in_environ "SPARK_REMOTE" (mkWorld [] tt) = false).
Proof.
  exact (@stop_clears_environ unit quiet unit no_active_session
           (fun _ => quiet) local_world (mkWorld [] tt) eq_refl).
Defined.

(** X16 at a local session without [SPARK_REMOTE]. *)
Lemma stop_without_remote_local :
  stop quiet no_active_session (fun _ => quiet) local_world_without_remote
  = (Raises (KeyError "SPARK_REMOTE"), mkWorld [] tt).
Proof.
  exact (@stop_without_remote unit quiet unit no_active_session
           (fun _ => quiet) local_world_without_remote
           local_world_without_remote local_world_without_remote
           eq_refl eq_refl eq_refl eq_refl eq_refl).
Defined.

(** X17 at a client whose closing fails, and at one whose closing is
    interrupted. *)
Lemma del_raises_no_Exception_failing :
  fst (__del__ (failing "closed") local_world) = Returns tt
  /\ is_Exception KeyboardInterrupt = false
  /\ stop (failing "closed") no_active_session (fun _ => quiet) local_world
     = (Raises (OtherException "closed"), local_world).
Proof.
  split; [|split].
  - exact (proj1 (proj2 (@del_raises_no_Exception unit (failing "closed")
                           unit no_active_session (fun _ => quiet)
                           local_world))
             (OtherException "closed") eq_refl eq_refl).
  - exact (proj1 (proj1 (@del_raises_no_Exception unit interrupted
                           unit no_active_session (fun _ => quiet)
                           local_world)
                    KeyboardInterrupt eq_refl)).
  - exact (proj2 (proj2 (proj2
             (@del_raises_no_Exception unit (failing "closed")
                unit no_active_session (fun _ => quiet) local_world)))
             (OtherException "closed") local_world eq_refl).
Defined.

(** X18 at a start whose initialization fails. *)
Lemma start_connect_server_restores_remote_local :
  dict_get String.eqb "SPARK_REMOTE"
    (environ
       (snd (fst (_start_connect_server (fun _ => false) false
                    (fun _ _ => tt) (fun _ _ c => c) (fun _ _ => false)
                    (fun _ => failing "no JVM") no_testing_module
                    (fun _ => quiet) (fun _ => quiet)
                    "local[4]" [] local_world))))
  = Some "sc://localhost".
Proof.
  exact (@start_connect_server_restores_remote unit (fun _ => false) false
           unit (fun _ _ => tt) (fun _ _ c => c) (fun _ _ => false)
           (fun _ => failing "no JVM") unit no_testing_module
           (fun _ => quiet) (fun _ => quiet)
           "local[4]" [] local_world "sc://localhost" eq_refl).
Defined.

(** X20 at a start whose initialization fails. *)
Lemma start_connect_server_init_fails_local :
  in_environ "SPARK_REMOTE"
    (with_environ
       (dict_del String.eqb "SPARK_REMOTE" (environ local_world))
       local_world)
  = false
  /\ _start_connect_server (fun _ => false) false
       (fun _ _ => tt) (fun _ _ c => c) (fun _ _ => false)
       (fun _ => failing "no JVM") no_testing_module
       (fun _ => quiet) (fun _ => quiet)
       "local[4]" [] local_world
     = (Raises (OtherException "no JVM"), local_world,
        [("spark.master", PyStr "local[4]");
         ("spark.local.connect", PyStr "1")]).
Proof.
  exact (@start_connect_server_init_fails unit (fun _ => false) false
           unit (fun _ _ => tt) (fun _ _ c => c) (fun _ _ => false)
           (fun _ => failing "no JVM") unit no_testing_module
           (fun _ => quiet) (fun _ => quiet)
           "local[4]" [] local_world local_world_without_remote
           "sc://localhost" (OtherException "no JVM")
           eq_refl eq_refl eq_refl).
Defined.


(** X21 at a release without [pyspark.testing]. *)
Lemma add_connect_jar_no_testing_module :
  add_connect_jar no_testing_module (fun _ => quiet) local_world
  = (Returns tt, local_world).
Proof.
  exact (proj1 (proj2 (@add_connect_jar_no_ImportError unit unit
                         no_testing_module (fun _ => quiet) local_world))
           "No module named 'pyspark.testing'" local_world eq_refl).
Defined.

(** X22 at a map of two options. *)
Lemma Builder_config_map_two :
  Builder_getOrCreate client_of
    (Builder_config str_of None PyNone
       (Some [("spark.app.name", PyStr "app");
              ("spark.remote", PyStr "sc://host")])
       new_Builder)
  = Returns (Some "sc://host").
Proof.
  exact (f_equal (Builder_getOrCreate client_of)
           (@Builder_config_map str_of None PyNone
              [("spark.app.name", PyStr "app");
               ("spark.remote", PyStr "sc://host")]
              new_Builder)).
Defined.

(** X23 at a configuration that is the dict of its options. *)
Lemma create_conf_plugins_given :
  dict_contains String.eqb "spark.plugins"
    (create_conf (fun (_ : bool) (_ : World unit) => [])
       (dict_set String.eqb) (dict_contains String.eqb)
       [("spark.plugins", PyStr "my.Plugin")] true local_world)
  = true.
Proof.
  refine (proj1 (@create_conf_plugins unit _ (fun _ _ => [])
                   (dict_set String.eqb) (dict_contains String.eqb)
                   [("spark.plugins", PyStr "my.Plugin")] true local_world
                   _ _)).
  - intros k v c. unfold dict_contains.
    now rewrite (@dict_get_set_same _ _ _ String.eqb_spec).
  - intros k k' v c. unfold dict_contains.
    destruct (String.eqb_spec k' k) as [-> | Hne].
    + now rewrite (@dict_get_set_same _ _ _ String.eqb_spec).
    + now rewrite (@dict_get_set_other _ _ _ String.eqb_spec).
Defined.

